(** * The order relay handler of the Janata Books backend

    A shallow embedding of [app.post('/api/create-order')] of [server.js]
    (the second variant of the file has the same handler and differs in the
    default bearer token and in the auxiliary routes), with the properties
    of its validation, payload mapping and error translation.

    The handler runs on whatever [express.json()] parsed, so request data is
    modelled as untyped JSON values with JavaScript's coercions written out.
    Numbers are IEEE 754 doubles (the kernel's primitive floats). Logging,
    the outbound call and exceptions are effects of a small monad. *)

From Stdlib Require Import String Ascii List Bool ZArith Lia PrimFloat.
Import ListNotations.
Local Open Scope string_scope.
Set Warnings "-register-all".

(** ** JSON values *)

(** What [JSON.parse] can build, and [undefined] for an absent property.
    Strings stand for sequences of code units; the handler only tests them
    for emptiness and concatenates them. *)
Inductive value : Type :=
| Undefined
| Null
| Boolean (b : bool)
| Num (f : float)
| Str (s : string)
| Arr (items : list value)
| Obj (props : list (string * value)).

(** An own property of a parsed object; of a repeated key [JSON.parse] keeps
    the last occurrence. *)
Fixpoint own (props : list (string * value)) (k : string) : option value :=
  match props with
  | [] => None
  | (k', v) :: rest =>
      match own rest k with
      | Some w => Some w
      | None => if String.eqb k' k then Some v else None
      end
  end.

Definition has_own (props : list (string * value)) (k : string) : bool :=
  match own props k with Some _ => true | None => false end.

(** [v.k] on a value that is neither [null] nor [undefined]. The handler
    reads the names orderId, cart, formData, totalAmount, shippingCost,
    couponDiscount, paymentId, deliveryDays, name, email, phone, address,
    city, pincode, state, id, price, quantity and order_id this way; none of
    them is defined on the prototypes of numbers, booleans, strings, arrays
    or plain objects, so only own properties of objects answer. *)
Definition prop (v : value) (k : string) : value :=
  match v with
  | Obj props => match own props k with Some w => w | None => Undefined end
  | _ => Undefined
  end.

Definition nullish (v : value) : bool :=
  match v with Undefined | Null => true | _ => false end.

(** ToBoolean. *)
Definition truthy (v : value) : bool :=
  match v with
  | Undefined | Null => false
  | Boolean b => b
  | Num f => negb (is_zero f || is_nan f)
  | Str s => negb (String.eqb s "")
  | Arr _ | Obj _ => true
  end.

Definition Number_isFinite (v : value) : bool :=
  match v with Num f => is_finite f | _ => false end.

Definition Array_isArray (v : value) : bool :=
  match v with Arr _ => true | _ => false end.

(** [v === n] for a number [n]. *)
Definition strict_eq_num (v : value) (n : float) : bool :=
  match v with Num f => (f =? n)%float | _ => false end.

(** [a || b]. *)
Definition js_or (a b : value) : value := if truthy a then a else b.

(** ** Exceptions *)

(** A thrown error: its [message], and the [response] (status and data) that
    axios attaches when the provider answered with a failure status. *)
Record js_error : Type := mk_error {
  err_message : string;
  err_response : option (Z * value)
}.

Definition TypeError (msg : string) : js_error :=
  {| err_message := msg; err_response := None |}.

Inductive result (A : Type) : Type :=
| Ok (a : A)
| Throw (e : js_error).
Arguments Ok {A} a.
Arguments Throw {A} e.

Definition bindR {A B : Type} (r : result A) (k : A -> result B) : result B :=
  match r with Ok a => k a | Throw e => Throw e end.

Notation "x <~ r ;; k" := (bindR r (fun x => k))
  (at level 61, r at next level, right associativity).

Definition describe (v : value) : string :=
  match v with Null => "null" | _ => "undefined" end.

(** [v.k] in general: reading a property of [null] or [undefined] throws. *)
Definition get (v : value) (k : string) : result value :=
  if nullish v
  then Throw (TypeError ("Cannot read properties of " ++ describe v
                         ++ " (reading '" ++ k ++ "')"))
  else Ok (prop v k).

(** ** Coercions *)

(** The two conversions between numbers and their decimal text belong to the
    JavaScript engine; the handler's properties do not depend on what they
    return. *)
Record engine : Type := mk_engine {
  Number_toString : float -> string;
  String_toNumber : string -> float
}.

Definition cannot_convert : js_error :=
  TypeError "Cannot convert object to primitive value".

Section Coercions.

Variable js : engine.

(** ToString. An array joins its elements with commas, [null] and
    [undefined] elements as empty text. A parsed object answers
    "[object Object]" unless an own [toString] property (never callable, as
    it came from JSON) shadows the inherited method, in which case the
    conversion throws. *)
Fixpoint ToString (v : value) : result string :=
  match v with
  | Undefined => Ok "undefined"
  | Null => Ok "null"
  | Boolean true => Ok "true"
  | Boolean false => Ok "false"
  | Num f => Ok (Number_toString js f)
  | Str s => Ok s
  | Arr items =>
      (fix join (l : list value) : result string :=
         match l with
         | [] => Ok ""
         | x :: rest =>
             sx <~ (if nullish x then Ok "" else ToString x) ;;
             match rest with
             | [] => Ok sx
             | _ :: _ => sr <~ join rest ;; Ok (sx ++ "," ++ sr)
             end
         end) items
  | Obj props =>
      if has_own props "toString" then Throw cannot_convert
      else Ok "[object Object]"
  end.

(** ToPrimitive. For parsed arrays and objects every hint ends in the
    [toString] method: the inherited [valueOf] returns the object itself and
    an own one is not callable. *)
Definition ToPrimitive (v : value) : result value :=
  match v with
  | Arr _ | Obj _ => s <~ ToString v ;; Ok (Str s)
  | _ => Ok v
  end.

(** ToNumber on a primitive. *)
Definition ToNumber_prim (p : value) : float :=
  match p with
  | Undefined => nan
  | Null => 0
  | Boolean true => 1
  | Boolean false => 0
  | Num f => f
  | Str s => String_toNumber js s
  | Arr _ | Obj _ => nan
  end.

Definition ToNumber (v : value) : result float :=
  p <~ ToPrimitive v ;; Ok (ToNumber_prim p).

Definition is_Str (v : value) : bool :=
  match v with Str _ => true | _ => false end.

(** [a + b]. *)
Definition js_add (a b : value) : result value :=
  pa <~ ToPrimitive a ;;
  pb <~ ToPrimitive b ;;
  if is_Str pa || is_Str pb
  then sa <~ ToString pa ;; sb <~ ToString pb ;; Ok (Str (sa ++ sb))
  else Ok (Num (ToNumber_prim pa + ToNumber_prim pb)).

(** [a * b]. *)
Definition js_mul (a b : value) : result value :=
  na <~ ToNumber a ;;
  nb <~ ToNumber b ;;
  Ok (Num (na * nb)).

(** [a < n] and [a <= n] for a number [n]. *)
Definition js_lt_num (a : value) (n : float) : result bool :=
  na <~ ToNumber a ;; Ok (na <? n)%float.

Definition js_le_num (a : value) (n : float) : result bool :=
  na <~ ToNumber a ;; Ok (na <=? n)%float.

End Coercions.

(** ** The provider's order schema *)

Module OrderItem.
Record t : Type := mk {
  name : value;
  sku : string;
  units : value;
  selling_price : value;
  discount : float;
  tax : float;
  hsn : string
}.
End OrderItem.

Module Payload.
Record t : Type := mk {
  order_id : value;
  order_date : string;
  pickup_location : string;
  channel_id : string;
  comment : string;
  billing_customer_name : value;
  billing_last_name : string;
  billing_address : value;
  billing_city : value;
  billing_pincode : value;
  billing_state : value;
  billing_country : string;
  billing_email : value;
  billing_phone : value;
  shipping_is_billing : bool;
  shipping_customer_name : value;
  shipping_last_name : string;
  shipping_address : value;
  shipping_city : value;
  shipping_pincode : value;
  shipping_country : string;
  shipping_state : value;
  shipping_email : value;
  shipping_phone : value;
  order_items : list OrderItem.t;
  payment_method : string;
  shipping_charges : value;
  giftwrap_charges : float;
  transaction_charges : float;
  total_discount : value;
  sub_total : value;
  length : float;
  breadth : float;
  height : float;
  weight : value
}.
End Payload.

(** ** The world around the handler *)

(** The call [axios.post(url, data, {headers, timeout})]. *)
Record request : Type := mk_request {
  url : string;
  data : Payload.t;
  headers : list (string * string);
  timeout : Z
}.

Record axios_response : Type := mk_axios_response {
  resp_status : Z;
  resp_data : value
}.

(** The promise of [axios.post] resolves with the provider's response or
    rejects with an error; the error carries a [response] when the provider
    answered with a status outside 2xx and none on a network failure or a
    timeout. *)
Inductive axios_result : Type :=
| Resolved (r : axios_response)
| Rejected (e : js_error).

(** What the handler reads from outside the request: the clock (the text of
    [new Date().toISOString()]), one environment variable and the provider
    behind the network. *)
Record world : Type := mk_world {
  now_iso : string;
  env_SHIPROCKET_PICKUP_LOCATION : option string;
  provider : request -> axios_result
}.

Record config : Type := mk_config {
  token : string;
  apiUrl : string
}.

(** [process.env.X || fallback]: an unset or empty variable gives the
    fallback. *)
Definition env_or (x : option string) (fallback : string) : string :=
  match x with
  | Some s => if String.eqb s "" then fallback else s
  | None => fallback
  end.

Definition shiprocketConfig (env_SHIPROCKET_TOKEN : option string) : config :=
  {| token := env_or env_SHIPROCKET_TOKEN "your-default-shiprocket-token-here";
     apiUrl := "https://apiv2.shiprocket.in" |}.

(** ** Responses, log and effects *)

Record http_response : Type := mk_response {
  status : Z;
  body : value
}.

Inductive log_level : Type := error | warn | info.

(** The metadata object handed to the logger. *)
Inductive meta : Type :=
| MVal (v : value)
| MCount (n : nat)
| MStatus (z : Z)
| MItems (l : list OrderItem.t)
| MPayload (p : Payload.t)
| MRecord (fields : list (string * meta)).

Record log_entry : Type := mk_log {
  level : log_level;
  log_message : string;
  log_meta : list (string * meta)
}.

Record effects : Type := mk_effects {
  log : list log_entry;
  calls : list request
}.

Definition no_effects : effects := {| log := []; calls := [] |}.

(** Computations of the handler: they append to the log, call the provider
    and may throw; what was logged before a throw stays logged. *)
Definition M (A : Type) : Type := effects -> result A * effects.

Definition ret {A : Type} (a : A) : M A := fun eff => (Ok a, eff).

Definition bind {A B : Type} (m : M A) (k : A -> M B) : M B :=
  fun eff =>
    match m eff with
    | (Ok a, eff') => k a eff'
    | (Throw e, eff') => (Throw e, eff')
    end.

Notation "x <- m ;; k" := (bind m (fun x => k))
  (at level 61, m at next level, right associativity).
Notation "m ;;; k" := (bind m (fun _ => k))
  (at level 61, right associativity).

Definition lift {A : Type} (r : result A) : M A := fun eff => (r, eff).

Definition try_catch {A : Type} (m : M A) (handler : js_error -> M A) : M A :=
  fun eff =>
    match m eff with
    | (Ok a, eff') => (Ok a, eff')
    | (Throw e, eff') => handler e eff'
    end.

Definition logger (lv : log_level) (msg : string) (md : list (string * meta))
  : M unit :=
  fun eff =>
    (Ok tt, {| log := (log eff ++ [mk_log lv msg md])%list; calls := calls eff |}).

Definition axios_post (w : world) (rq : request) : M axios_response :=
  fun eff =>
    let eff' := {| log := log eff; calls := (calls eff ++ [rq])%list |} in
    match provider w rq with
    | Resolved r => (Ok r, eff')
    | Rejected e => (Throw e, eff')
    end.

(** [res.status(code).json(obj)]. *)
Definition res_json (code : Z) (obj : list (string * value)) : M http_response :=
  ret {| status := code; body := Obj obj |}.

(** ** The handler *)

(** The names the handler destructures from [req.body]. *)
Record submission : Type := mk_submission {
  orderId : value;
  cart : value;
  formData : value;
  totalAmount : value;
  shippingCost : value;
  couponDiscount : value;
  paymentId : value;
  deliveryDays : value
}.

(** [const { orderId, ... } = req.body]: throws when there is no body. *)
Definition destructure (req_body : value) : result submission :=
  if nullish req_body
  then Throw (TypeError ("Cannot destructure property 'orderId' of 'req.body' as it is "
                         ++ describe req_body ++ "."))
  else Ok {| orderId := prop req_body "orderId";
             cart := prop req_body "cart";
             formData := prop req_body "formData";
             totalAmount := prop req_body "totalAmount";
             shippingCost := prop req_body "shippingCost";
             couponDiscount := prop req_body "couponDiscount";
             paymentId := prop req_body "paymentId";
             deliveryDays := prop req_body "deliveryDays" |}.

(** The elements of an array; the handler iterates over [cart] only after
    [Array.isArray(cart)] held. *)
Definition elements (v : value) : list value :=
  match v with Arr l => l | _ => [] end.

(** [cart.length === 0], evaluated once [cart] is known to be an array. *)
Definition length_is_zero (v : value) : bool :=
  Nat.eqb (List.length (elements v)) 0.

(** [cart?.length], for the log. *)
Definition optional_length (v : value) : meta :=
  match v with
  | Undefined | Null => MVal Undefined
  | Arr l => MCount (List.length l)
  | Str s => MCount (String.length s)
  | _ => MVal (prop v "length")
  end.

(** [Array.prototype.find]: the first element the callback accepts, or
    [undefined]. *)
Fixpoint Array_find (f : value -> result bool) (l : list value) : result value :=
  match l with
  | [] => Ok Undefined
  | x :: rest => b <~ f x ;; if b then Ok x else Array_find f rest
  end.

Fixpoint Array_map {B : Type} (f : value -> result B) (l : list value)
  : result (list B) :=
  match l with
  | [] => Ok []
  | x :: rest => y <~ f x ;; ys <~ Array_map f rest ;; Ok (y :: ys)
  end.

Fixpoint Array_reduce (f : value -> value -> result value) (l : list value)
  (acc : value) : result value :=
  match l with
  | [] => Ok acc
  | x :: rest => acc' <~ f acc x ;; Array_reduce f rest acc'
  end.

(** [s.split('T')[0]]. *)
Fixpoint before_T (s : string) : string :=
  match s with
  | EmptyString => EmptyString
  | String c rest => if Ascii.eqb c "T" then EmptyString else String c (before_T rest)
  end.

Definition missing_required_order_data : list (string * value) :=
  [("success", Boolean false); ("error", Str "Missing required order data")].

Definition incomplete_shipping_details : list (string * value) :=
  [("success", Boolean false); ("error", Str "Incomplete shipping details")].

Definition invalid_cart_item_data : list (string * value) :=
  [("success", Boolean false); ("error", Str "Invalid cart item data")].

Definition invalid_total_amount : list (string * value) :=
  [("success", Boolean false);
   ("error", Str "Total amount must be a valid non-negative number")].

Section Handler.

Variable js : engine.
Variable cfg : config.
Variable w : world.

(** Line 76. *)
Definition missing_required (sub : submission) : bool :=
  negb (truthy (orderId sub)) || negb (truthy (cart sub))
  || negb (Array_isArray (cart sub)) || length_is_zero (cart sub)
  || negb (truthy (formData sub)) || negb (truthy (paymentId sub)).

(** Line 87; [formData] is truthy here, so the reads cannot throw. *)
Definition incomplete_form (fd : value) : bool :=
  negb (truthy (prop fd "name")) || negb (truthy (prop fd "email"))
  || negb (truthy (prop fd "phone")) || negb (truthy (prop fd "address"))
  || negb (truthy (prop fd "pincode")) || negb (truthy (prop fd "state")).

(** The callback of [cart.find], line 92. *)
Definition invalid_item (item : value) : result bool :=
  id <~ get item "id" ;;
  if negb (truthy id) then Ok true else
  name <~ get item "name" ;;
  if negb (truthy name) then Ok true else
  price <~ get item "price" ;;
  if negb (Number_isFinite price) then Ok true else
  quantity <~ get item "quantity" ;;
  if negb (Number_isFinite quantity) then Ok true else
  quantity' <~ get item "quantity" ;;
  js_le_num js quantity' 0.

(** Line 98. *)
Definition invalid_total (total : value) : result bool :=
  if negb (Number_isFinite total) then Ok true else js_lt_num js total 0.

(** Lines 76 to 104: [Some] is the 400 response the handler returns, [None]
    lets the request through. *)
Definition validate (sub : submission) : M (option http_response) :=
  if missing_required sub then
    logger error "Invalid order data received"
      [("orderId", MVal (orderId sub));
       ("cartLength", optional_length (cart sub));
       ("formData", MVal (formData sub));
       ("totalAmount", MVal (totalAmount sub));
       ("paymentId", MVal (paymentId sub))] ;;;
    r <- res_json 400 missing_required_order_data ;; ret (Some r)
  else if incomplete_form (formData sub) then
    logger error "Incomplete form data" [("formData", MVal (formData sub))] ;;;
    r <- res_json 400 incomplete_shipping_details ;; ret (Some r)
  else
    invalidItem <- lift (Array_find invalid_item (elements (cart sub))) ;;
    if truthy invalidItem then
      logger error "Invalid cart item detected" [("invalidItem", MVal invalidItem)] ;;;
      r <- res_json 400 invalid_cart_item_data ;; ret (Some r)
    else
      bad <- lift (invalid_total (totalAmount sub)) ;;
      if bad then
        logger error "Invalid total amount" [("totalAmount", MVal (totalAmount sub))] ;;;
        r <- res_json 400 invalid_total_amount ;; ret (Some r)
      else
        (if strict_eq_num (totalAmount sub) 0
         then logger warn "Total amount is zero, proceeding with warning"
                [("orderId", MVal (orderId sub));
                 ("totalAmount", MVal (totalAmount sub))]
         else ret tt) ;;;
        ret None.

(** The callback of [cart.map], lines 106 to 114. *)
Definition order_item (item : value) : result OrderItem.t :=
  name <~ get item "name" ;;
  id <~ get item "id" ;;
  id_text <~ ToString js id ;;
  quantity <~ get item "quantity" ;;
  price <~ get item "price" ;;
  Ok {| OrderItem.name := name;
        OrderItem.sku := "SKU-" ++ id_text;
        OrderItem.units := quantity;
        OrderItem.selling_price := price;
        OrderItem.discount := 0;
        OrderItem.tax := 0;
        OrderItem.hsn := "4901" |}.

(** The callback of [cart.reduce], line 154. *)
Definition add_quantity (sum item : value) : result value :=
  quantity <~ get item "quantity" ;; js_add js sum quantity.

Definition orderDate : string := before_T (now_iso w).

(** The object literal of lines 119 to 155; its last field is the only one
    whose evaluation can throw. *)
Definition payload (sub : submission) (orderItems : list OrderItem.t)
  : result Payload.t :=
  let fd := formData sub in
  total <~ Array_reduce add_quantity (elements (cart sub)) (Num 0) ;;
  weight <~ js_mul js (Num 0.5) total ;;
  Ok {| Payload.order_id := orderId sub;
        Payload.order_date := orderDate;
        Payload.pickup_location := env_or (env_SHIPROCKET_PICKUP_LOCATION w) "Primary";
        Payload.channel_id := "";
        Payload.comment := "Order from Janata Books Point";
        Payload.billing_customer_name := prop fd "name";
        Payload.billing_last_name := "";
        Payload.billing_address := prop fd "address";
        Payload.billing_city := js_or (prop fd "city") (Str "");
        Payload.billing_pincode := prop fd "pincode";
        Payload.billing_state := prop fd "state";
        Payload.billing_country := "India";
        Payload.billing_email := prop fd "email";
        Payload.billing_phone := prop fd "phone";
        Payload.shipping_is_billing := true;
        Payload.shipping_customer_name := prop fd "name";
        Payload.shipping_last_name := "";
        Payload.shipping_address := prop fd "address";
        Payload.shipping_city := js_or (prop fd "city") (Str "");
        Payload.shipping_pincode := prop fd "pincode";
        Payload.shipping_country := "India";
        Payload.shipping_state := prop fd "state";
        Payload.shipping_email := prop fd "email";
        Payload.shipping_phone := prop fd "phone";
        Payload.order_items := orderItems;
        Payload.payment_method := "Prepaid";
        Payload.shipping_charges := js_or (shippingCost sub) (Num 0);
        Payload.giftwrap_charges := 0;
        Payload.transaction_charges := 0;
        Payload.total_discount := js_or (couponDiscount sub) (Num 0);
        Payload.sub_total := totalAmount sub;
        Payload.length := 30;
        Payload.breadth := 20;
        Payload.height := 5;
        Payload.weight := weight |}.

(** The arguments of [axios.post], lines 159 to 169. *)
Definition create_adhoc (p : Payload.t) : request :=
  {| url := apiUrl cfg ++ "/v1/external/orders/create/adhoc";
     data := p;
     headers := [("Content-Type", "application/json");
                 ("Authorization", "Bearer " ++ token cfg)];
     timeout := 10000 |}.

(** Lines 106 to 177. *)
Definition forward (sub : submission) : M http_response :=
  orderItems <- lift (Array_map order_item (elements (cart sub))) ;;
  logger info "Cart details"
    [("cart", MVal (cart sub)); ("orderItems", MItems orderItems)] ;;;
  p <- lift (payload sub orderItems) ;;
  logger info "Sending order to Shiprocket"
    [("orderId", MVal (orderId sub));
     ("totalAmount", MVal (totalAmount sub));
     ("itemCount", MCount (List.length (elements (cart sub))));
     ("payload", MPayload p)] ;;;
  response <- axios_post w (create_adhoc p) ;;
  shiprocketOrderId <- lift (get (resp_data response) "order_id") ;;
  logger info "Shiprocket order created successfully"
    [("orderId", MVal (orderId sub));
     ("shiprocketOrderId", MVal shiprocketOrderId)] ;;;
  res_json 200
    [("success", Boolean true);
     ("shiprocketOrderId", shiprocketOrderId);
     ("message", Str "Order created successfully in Shiprocket")].

Definition try_block (req_body : value) : M http_response :=
  sub <- lift (destructure req_body) ;;
  rejection <- validate sub ;;
  match rejection with
  | Some r => ret r
  | None => forward sub
  end.

(** Lines 178 to 210. *)
Definition catch_block (e : js_error) : M http_response :=
  logger error "Error creating Shiprocket order"
    [("error", MVal (Str (err_message e)));
     ("response",
      match err_response e with
      | Some (st, d) => MRecord [("status", MStatus st); ("data", MVal d)]
      | None => MVal Null
      end)] ;;;
  match err_response e with
  | Some (st, d) =>
      if Z.eqb st 401 then
        res_json 401
          [("success", Boolean false);
           ("error", Str "Shiprocket authentication failed");
           ("details", Str "Invalid or expired Shiprocket token")]
      else if Z.eqb st 422 then
        res_json 422
          [("success", Boolean false);
           ("error", Str "Invalid order data for Shiprocket");
           ("details", d)]
      else
        res_json 500
          [("success", Boolean false);
           ("error", Str "Failed to create order in Shiprocket");
           ("details", Str (err_message e))]
  | None =>
      res_json 500
        [("success", Boolean false);
         ("error", Str "Failed to create order in Shiprocket");
         ("details", Str (err_message e))]
  end.

(** [app.post('/api/create-order', ...)]. *)
Definition create_order (req_body : value) : M http_response :=
  try_catch (try_block req_body) catch_block.

(** The payload mapper by itself: lines 106 to 155 without the logging in
    between. *)
Definition map_payload (sub : submission) : result Payload.t :=
  orderItems <~ Array_map order_item (elements (cart sub)) ;;
  payload sub orderItems.

End Handler.

(** ** Observing a run *)

(** The handler starts with an empty log and no call made. *)
Definition respond (m : M http_response) : result http_response :=
  fst (m no_effects).

Definition outbound (m : M http_response) : list request :=
  calls (snd (m no_effects)).

Definition logged (m : M http_response) : list log_entry :=
  log (snd (m no_effects)).

(** A value that is an array with at least one element. *)
Definition nonempty_array (v : value) : bool :=
  match v with Arr (_ :: _) => true | _ => false end.

(** An item the callback of [cart.find] lets through. *)
Definition valid_item (js : engine) (item : value) : bool :=
  match invalid_item js item with Ok false => true | _ => false end.

(** A submission as the data model wants it: the four required names are
    there, the shipping form is complete, every line item is valid and the
    total is a finite number that is not negative. *)
Definition valid_submission (js : engine) (sub : submission) : bool :=
  negb (missing_required sub)
  && negb (incomplete_form (formData sub))
  && forallb (valid_item js) (elements (cart sub))
  && match invalid_total js (totalAmount sub) with Ok false => true | _ => false end.

Definition primitive (v : value) : bool :=
  match v with Arr _ | Obj _ => false | _ => true end.

(** The sum [cart.reduce] computes on numbers: from 0, left to right. *)
Definition sum_quantities (qs : list float) : float :=
  fold_left PrimFloat.add qs 0%float.

Definition with_charges (sub : submission) (sc cd : value) : submission :=
  {| orderId := orderId sub; cart := cart sub; formData := formData sub;
     totalAmount := totalAmount sub; shippingCost := sc; couponDiscount := cd;
     paymentId := paymentId sub; deliveryDays := deliveryDays sub |}.

(** A submission the validator lets through. *)
Definition passes (js : engine) (sub : submission) : Prop :=
  fst (validate js sub no_effects) = Ok None.

(** How one line item is mapped. *)
Definition maps_to (js : engine) (item : value) (oi : OrderItem.t) : Prop :=
  exists id_text,
    ToString js (prop item "id") = Ok id_text
    /\ oi = {| OrderItem.name := prop item "name";
               OrderItem.sku := "SKU-" ++ id_text;
               OrderItem.units := prop item "quantity";
               OrderItem.selling_price := prop item "price";
               OrderItem.discount := 0;
               OrderItem.tax := 0;
               OrderItem.hsn := "4901" |}.

(** ** Sample data *)

Definition example_form : value :=
  Obj [("name", Str "A"); ("email", Str "a@x.com"); ("phone", Str "123");
       ("address", Str "addr"); ("pincode", Str "110001"); ("state", Str "DL")].

Definition sample_order (c total : value) : value :=
  Obj [("orderId", Str "O1"); ("cart", c); ("formData", example_form);
       ("totalAmount", total); ("paymentId", Str "P1")].

Definition order_with_cart (c : value) : value := sample_order c (Num 200).

Definition example_book : value :=
  Obj [("id", Str "B1"); ("name", Str "Book"); ("price", Num 100);
       ("quantity", Num 2)].

(** The submission of the specification's example. *)
Definition example_body : value := order_with_cart (Arr [example_book]).

Definition example_submission : submission :=
  {| orderId := Str "O1"; cart := Arr [example_book]; formData := example_form;
     totalAmount := Num 200; shippingCost := Undefined;
     couponDiscount := Undefined; paymentId := Str "P1";
     deliveryDays := Undefined |}.

Definition zero_total_order : value :=
  sample_order (Arr [example_book]) (Num 0).

Definition negative_total_order : value :=
  sample_order (Arr [example_book]) (Num (-1)).

(** No paymentId, and an item without name, price and quantity. *)
Definition unpaid_order_with_bad_item : value :=
  Obj [("orderId", Str "O1"); ("cart", Arr [Obj [("id", Str "B1")]]);
       ("formData", example_form); ("totalAmount", Num 200)].

Definition nameless_book : value :=
  Obj [("id", Str "B2"); ("name", Str ""); ("price", Num 100);
       ("quantity", Num 2)].

(** A negative shipping cost and a coupon discount that is not a number. *)
Definition order_with_odd_charges : value :=
  Obj [("orderId", Str "O1"); ("cart", Arr [example_book]);
       ("formData", example_form); ("totalAmount", Num 200);
       ("shippingCost", Num (-5)); ("couponDiscount", Str "ten");
       ("paymentId", Str "P1")].

(** An engine for concrete runs on inputs that never convert a number to
    text or back. *)
Definition test_engine : engine :=
  {| Number_toString := fun _ => "0"; String_toNumber := fun _ => nan |}.

Definition test_config : config := shiprocketConfig None.

(** A provider that accepts every order, one that rejects the token, and a
    network that is down. *)
Definition accepting (rq : request) : axios_result :=
  Resolved {| resp_status := 200; resp_data := Obj [("order_id", Num 77)] |}.

Definition unauthorized (rq : request) : axios_result :=
  Rejected {| err_message := "Request failed with status code 401";
              err_response := Some (401%Z, Obj [("message", Str "Unauthenticated.")]) |}.

Definition test_world (provider : request -> axios_result) : world :=
  {| now_iso := "2025-07-14T09:30:00.000Z";
     env_SHIPROCKET_PICKUP_LOCATION := None;
     provider := provider |}.

Definition next_day_world : world :=
  {| now_iso := "2025-07-15T09:30:00.000Z";
     env_SHIPROCKET_PICKUP_LOCATION := None;
     provider := accepting |}.

(** The payload with another date and pickup location. *)
Definition restamp (date location : string) (p : Payload.t) : Payload.t :=
  {| Payload.order_id := Payload.order_id p;
     Payload.order_date := date;
     Payload.pickup_location := location;
     Payload.channel_id := Payload.channel_id p;
     Payload.comment := Payload.comment p;
     Payload.billing_customer_name := Payload.billing_customer_name p;
     Payload.billing_last_name := Payload.billing_last_name p;
     Payload.billing_address := Payload.billing_address p;
     Payload.billing_city := Payload.billing_city p;
     Payload.billing_pincode := Payload.billing_pincode p;
     Payload.billing_state := Payload.billing_state p;
     Payload.billing_country := Payload.billing_country p;
     Payload.billing_email := Payload.billing_email p;
     Payload.billing_phone := Payload.billing_phone p;
     Payload.shipping_is_billing := Payload.shipping_is_billing p;
     Payload.shipping_customer_name := Payload.shipping_customer_name p;
     Payload.shipping_last_name := Payload.shipping_last_name p;
     Payload.shipping_address := Payload.shipping_address p;
     Payload.shipping_city := Payload.shipping_city p;
     Payload.shipping_pincode := Payload.shipping_pincode p;
     Payload.shipping_country := Payload.shipping_country p;
     Payload.shipping_state := Payload.shipping_state p;
     Payload.shipping_email := Payload.shipping_email p;
     Payload.shipping_phone := Payload.shipping_phone p;
     Payload.order_items := Payload.order_items p;
     Payload.payment_method := Payload.payment_method p;
     Payload.shipping_charges := Payload.shipping_charges p;
     Payload.giftwrap_charges := Payload.giftwrap_charges p;
     Payload.transaction_charges := Payload.transaction_charges p;
     Payload.total_discount := Payload.total_discount p;
     Payload.sub_total := Payload.sub_total p;
     Payload.length := Payload.length p;
     Payload.breadth := Payload.breadth p;
     Payload.height := Payload.height p;
     Payload.weight := Payload.weight p |}.

(** ** The rest of the server *)

(** [app.get('/my-ip', ...)], lines 35 to 43 of server.js: the public
    address of the server as an IP-echo service reports it. [axios_get] is
    the network behind [axios.get]. *)
Definition my_ip (axios_get : string -> axios_result) : M http_response :=
  try_catch
    (response <- (fun eff =>
                    match axios_get "https://api64.ipify.org?format=json" with
                    | Resolved r => (Ok r, eff)
                    | Rejected e => (Throw e, eff)
                    end) ;;
     ret {| status := 200; body := resp_data response |})
    (fun err =>
       logger error "Failed to fetch public IP address"
         [("error", MVal (Str (err_message err)))] ;;;
       res_json 500 [("error", Str "Failed to fetch public IP")]).

(** ** Notions for the further properties *)

(** An error raised by the handler's own code, not by the provider. *)
Definition internal (e : js_error) : Prop := err_response e = None.

(** The 500 of the catch block for an error without a response. *)
Definition failed_to_create (msg : string) : http_response :=
  {| status := 500;
     body := Obj [("success", Boolean false);
                  ("error", Str "Failed to create order in Shiprocket");
                  ("details", Str msg)] |}.

Definition with_deliveryDays (sub : submission) (d : value) : submission :=
  {| orderId := orderId sub; cart := cart sub; formData := formData sub;
     totalAmount := totalAmount sub; shippingCost := shippingCost sub;
     couponDiscount := couponDiscount sub; paymentId := paymentId sub;
     deliveryDays := d |}.

Definition with_total (sub : submission) (t : value) : submission :=
  {| orderId := orderId sub; cart := cart sub; formData := formData sub;
     totalAmount := t; shippingCost := shippingCost sub;
     couponDiscount := couponDiscount sub; paymentId := paymentId sub;
     deliveryDays := deliveryDays sub |}.

(** The names the handler reads from the body. *)
Definition body_names : list string :=
  ["orderId"; "cart"; "formData"; "totalAmount"; "shippingCost";
   "couponDiscount"; "paymentId"].

Fixpoint contains_T (s : string) : bool :=
  match s with
  | EmptyString => false
  | String c rest => Ascii.eqb c "T" || contains_T rest
  end.

(** The three entries a forwarded order leaves in the log. *)
Definition forwarding_log (sub : submission) (p : Payload.t) : list log_entry :=
  [mk_log info "Cart details"
     [("cart", MVal (cart sub)); ("orderItems", MItems (Payload.order_items p))];
   mk_log info "Sending order to Shiprocket"
     [("orderId", MVal (orderId sub));
      ("totalAmount", MVal (totalAmount sub));
      ("itemCount", MCount (List.length (elements (cart sub))));
      ("payload", MPayload p)]].

(** A provider that answers with an empty body, and an IP-echo service that
    is unreachable. *)
Definition answering_null (rq : request) : axios_result :=
  Resolved {| resp_status := 200; resp_data := Null |}.

Definition unreachable (u : string) : axios_result :=
  Rejected {| err_message := "getaddrinfo ENOTFOUND api64.ipify.org";
              err_response := None |}.

(** What [sample_order c total] destructures to. *)
Definition sample_submission (c total : value) : submission :=
  {| orderId := Str "O1"; cart := c; formData := example_form;
     totalAmount := total; shippingCost := Undefined;
     couponDiscount := Undefined; paymentId := Str "P1";
     deliveryDays := Undefined |}.

Definition order_with_delivery : value :=
  Obj [("orderId", Str "O1"); ("cart", Arr [example_book]);
       ("formData", example_form); ("totalAmount", Num 200);
       ("paymentId", Str "P1"); ("deliveryDays", Num 3);
       ("note", Str "leave at the door")].

(** ** Basic facts *)

Ltac orb_true :=
  repeat (rewrite orb_true_r || rewrite orb_true_l); reflexivity.

(** From [map_payload js w sub = Ok p] to the three computations that
    succeeded and the record they filled. *)
Ltac payload_inv Hp :=
  unfold map_payload, payload in Hp;
  destruct (Array_map _ _) as [?items|] eqn:?Hitems;
    simpl in Hp; [|discriminate Hp];
  destruct (Array_reduce _ _ _) as [?total|] eqn:?Htotal;
    simpl in Hp; [|discriminate Hp];
  destruct (js_mul _ (Num 0.5) _) as [?wt|] eqn:?Hwt;
    simpl in Hp; [|discriminate Hp];
  injection Hp as <-.

Lemma destructure_ok (req_body : value) :
  nullish req_body = false ->
  exists sub, destructure req_body = Ok sub
    /\ orderId sub = prop req_body "orderId"
    /\ cart sub = prop req_body "cart"
    /\ formData sub = prop req_body "formData"
    /\ totalAmount sub = prop req_body "totalAmount"
    /\ shippingCost sub = prop req_body "shippingCost"
    /\ couponDiscount sub = prop req_body "couponDiscount"
    /\ paymentId sub = prop req_body "paymentId".
Proof.
  intros H. unfold destructure. rewrite H.
  eexists. split; [reflexivity|]. simpl. tauto.
Qed.

Lemma destructure_inv (req_body : value) (sub : submission) :
  destructure req_body = Ok sub ->
  nullish req_body = false
  /\ orderId sub = prop req_body "orderId"
  /\ cart sub = prop req_body "cart"
  /\ formData sub = prop req_body "formData"
  /\ totalAmount sub = prop req_body "totalAmount"
  /\ shippingCost sub = prop req_body "shippingCost"
  /\ couponDiscount sub = prop req_body "couponDiscount"
  /\ paymentId sub = prop req_body "paymentId".
Proof.
  unfold destructure. destruct (nullish req_body); [discriminate|].
  intros H. injection H as <-. simpl. tauto.
Qed.

Lemma nonempty_array_false (v : value) :
  nonempty_array v = false ->
  negb (truthy v) || negb (Array_isArray v) || length_is_zero v = true.
Proof.
  destruct v as [| | b | f | s | [|x l] | props]; simpl; try reflexivity;
    try discriminate; intros _; rewrite ?orb_true_r; reflexivity.
Qed.

Lemma invalid_total_spec (js : engine) (total : value) :
  invalid_total js total
  = Ok (negb (Number_isFinite total)
        || match total with Num f => (f <? 0)%float | _ => false end).
Proof.
  unfold invalid_total. destruct total; simpl; try reflexivity.
  destruct (is_finite f); reflexivity.
Qed.

(** What the whole handler does once a check of the validator has fired:
    the response of that check, and nothing sent. *)
Lemma rejection_is_final (js : engine) (cfg : config) (w : world)
  (req_body : value) (sub : submission) (r : http_response) (eff : effects) :
  destructure req_body = Ok sub ->
  validate js sub no_effects = (Ok (Some r), eff) ->
  calls eff = [] ->
  respond (create_order js cfg w req_body) = Ok r
  /\ outbound (create_order js cfg w req_body) = []
  /\ logged (create_order js cfg w req_body) = log eff.
Proof.
  intros Hd Hv Hc.
  unfold respond, outbound, logged, create_order, try_catch, try_block, bind, lift.
  rewrite Hd, Hv. simpl. auto.
Qed.

Lemma check1_rejects (js : engine) (cfg : config) (w : world)
  (req_body : value) (sub : submission) :
  destructure req_body = Ok sub ->
  missing_required sub = true ->
  respond (create_order js cfg w req_body)
    = Ok {| status := 400; body := Obj missing_required_order_data |}
  /\ outbound (create_order js cfg w req_body) = [].
Proof.
  intros Hd Hm.
  edestruct (rejection_is_final js cfg w req_body sub) as (Hr & Ho & _);
    [exact Hd | | | split; [exact Hr | exact Ho]].
  - unfold validate. rewrite Hm. reflexivity.
  - reflexivity.
Qed.

Lemma check2_rejects (js : engine) (cfg : config) (w : world)
  (req_body : value) (sub : submission) :
  destructure req_body = Ok sub ->
  missing_required sub = false ->
  incomplete_form (formData sub) = true ->
  respond (create_order js cfg w req_body)
    = Ok {| status := 400; body := Obj incomplete_shipping_details |}
  /\ outbound (create_order js cfg w req_body) = [].
Proof.
  intros Hd Hm Hi.
  edestruct (rejection_is_final js cfg w req_body sub) as (Hr & Ho & _);
    [exact Hd | | | split; [exact Hr | exact Ho]].
  - unfold validate. rewrite Hm, Hi. reflexivity.
  - reflexivity.
Qed.

Lemma check3_rejects (js : engine) (cfg : config) (w : world)
  (req_body : value) (sub : submission) (item : value) :
  destructure req_body = Ok sub ->
  missing_required sub = false ->
  incomplete_form (formData sub) = false ->
  Array_find (invalid_item js) (elements (cart sub)) = Ok item ->
  truthy item = true ->
  respond (create_order js cfg w req_body)
    = Ok {| status := 400; body := Obj invalid_cart_item_data |}
  /\ outbound (create_order js cfg w req_body) = []
  /\ logged (create_order js cfg w req_body)
     = [mk_log error "Invalid cart item detected" [("invalidItem", MVal item)]].
Proof.
  intros Hd Hm Hi Hf Ht.
  assert (Hv : validate js sub no_effects
               = (Ok (Some {| status := 400; body := Obj invalid_cart_item_data |}),
                  {| log := [mk_log error "Invalid cart item detected"
                               [("invalidItem", MVal item)]];
                     calls := [] |})).
  { unfold validate, bind, lift. rewrite Hm, Hi, Hf, Ht. reflexivity. }
  exact (rejection_is_final js cfg w req_body sub _ _ Hd Hv eq_refl).
Qed.

Lemma check4_rejects (js : engine) (cfg : config) (w : world)
  (req_body : value) (sub : submission) (item : value) :
  destructure req_body = Ok sub ->
  missing_required sub = false ->
  incomplete_form (formData sub) = false ->
  Array_find (invalid_item js) (elements (cart sub)) = Ok item ->
  truthy item = false ->
  invalid_total js (totalAmount sub) = Ok true ->
  respond (create_order js cfg w req_body)
    = Ok {| status := 400; body := Obj invalid_total_amount |}
  /\ outbound (create_order js cfg w req_body) = [].
Proof.
  intros Hd Hm Hi Hf Ht Hb.
  edestruct (rejection_is_final js cfg w req_body sub) as (Hr & Ho & _);
    [exact Hd | | | split; [exact Hr | exact Ho]].
  - unfold validate, bind, lift. rewrite Hm, Hi, Hf, Ht, Hb. reflexivity.
  - reflexivity.
Qed.

(** ** The cart check *)

Lemma truthy_not_nullish (v : value) : truthy v = true -> nullish v = false.
Proof. destruct v; simpl; intros H; try reflexivity; discriminate. Qed.

(** On anything but [null] the callback of [cart.find] is the disjunction
    the source spells out. *)
Lemma invalid_item_spec (js : engine) (item : value) :
  nullish item = false ->
  invalid_item js item
  = Ok (negb (truthy (prop item "id")) || negb (truthy (prop item "name"))
        || negb (Number_isFinite (prop item "price"))
        || negb (Number_isFinite (prop item "quantity"))
        || match prop item "quantity" with
           | Num q => (q <=? 0)%float
           | _ => false
           end).
Proof.
  intros Hn. unfold invalid_item, get. rewrite Hn. simpl.
  destruct (truthy (prop item "id")); simpl; [|reflexivity].
  destruct (truthy (prop item "name")); simpl; [|reflexivity].
  destruct (Number_isFinite (prop item "price")); simpl; [|reflexivity].
  destruct (prop item "quantity") as [| | b | q | s | l | ps]; simpl;
    try reflexivity.
  destruct (is_finite q); reflexivity.
Qed.

Lemma invalid_item_null (js : engine) (item : value) :
  nullish item = true ->
  invalid_item js item
  = Throw (TypeError ("Cannot read properties of " ++ describe item
                      ++ " (reading 'id')")).
Proof. intros Hn. unfold invalid_item, get. rewrite Hn. reflexivity. Qed.

(** What a valid line item looks like. *)
Lemma valid_item_inv (js : engine) (item : value) :
  valid_item js item = true ->
  nullish item = false
  /\ truthy (prop item "id") = true
  /\ truthy (prop item "name") = true
  /\ Number_isFinite (prop item "price") = true
  /\ exists q, prop item "quantity" = Num q
       /\ is_finite q = true /\ (q <=? 0)%float = false.
Proof.
  unfold valid_item. intros H.
  destruct (nullish item) eqn:Hn.
  - rewrite (invalid_item_null js item Hn) in H. discriminate.
  - rewrite (invalid_item_spec js item Hn) in H.
    destruct (truthy (prop item "id")); simpl in H; [|discriminate].
    destruct (truthy (prop item "name")); simpl in H; [|discriminate].
    destruct (Number_isFinite (prop item "price")); simpl in H; [|discriminate].
    destruct (prop item "quantity") as [| | b | q | s | l | ps]; simpl in H;
      try discriminate.
    destruct (is_finite q) eqn:Hfin; simpl in H; [|discriminate].
    destruct (q <=? 0)%float eqn:Hle; [discriminate|].
    split; [reflexivity|]. split; [reflexivity|]. split; [reflexivity|].
    split; [reflexivity|]. exists q. auto.
Qed.

Lemma valid_item_invalid (js : engine) (item : value) :
  valid_item js item = true -> invalid_item js item = Ok false.
Proof.
  unfold valid_item. destruct (invalid_item js item) as [[|]|]; try discriminate.
  reflexivity.
Qed.

(** [find] returns the first element its callback accepts, provided the
    callback did not throw on the way. *)
Lemma Array_find_first (f : value -> result bool) (pre post : list value)
  (it : value) :
  Forall (fun x => f x = Ok false) pre ->
  f it = Ok true ->
  Array_find f (pre ++ it :: post) = Ok it.
Proof.
  induction 1 as [|x pre Hx _ IH]; intros Hit; simpl.
  - rewrite Hit. reflexivity.
  - rewrite Hx. simpl. apply IH, Hit.
Qed.

Lemma Array_find_none (f : value -> result bool) (l : list value) :
  Forall (fun x => f x = Ok false) l -> Array_find f l = Ok Undefined.
Proof.
  induction 1 as [|x l Hx _ IH]; simpl; [reflexivity|].
  rewrite Hx. simpl. exact IH.
Qed.

Lemma find_all_valid (js : engine) (l : list value) :
  forallb (valid_item js) l = true ->
  Array_find (invalid_item js) l = Ok Undefined.
Proof.
  intros H. apply Array_find_none. rewrite forallb_forall in H.
  apply Forall_forall. intros x Hx. apply valid_item_invalid, H, Hx.
Qed.

(** When no element of the cart is [null], [false], 0 or the empty string
    (so in particular when all are objects), the check does what it is meant
    to: it finds the first offending item, and that item is truthy. *)
Lemma find_on_truthy_elements (js : engine) (l : list value) :
  forallb truthy l = true ->
  (exists x, In x l /\ invalid_item js x = Ok true) ->
  exists pre it post,
    l = (pre ++ it :: post)%list
    /\ Forall (fun x => invalid_item js x = Ok false) pre
    /\ invalid_item js it = Ok true
    /\ truthy it = true
    /\ Array_find (invalid_item js) l = Ok it.
Proof.
  induction l as [|x l IH]; intros Ht (y & Hy & Hinv).
  - destruct Hy.
  - simpl in Ht. apply andb_true_iff in Ht as [Htx Htl].
    pose proof (invalid_item_spec js x (truthy_not_nullish x Htx)) as Hx.
    destruct (_ || _) eqn:Hb in Hx.
    + exists [], x, l. simpl. rewrite Hx. simpl. auto.
    + destruct Hy as [<- | Hy]; [congruence|].
      destruct (IH Htl (ex_intro _ y (conj Hy Hinv)))
        as (pre & it & post & -> & Hpre & Hit & Htit & Hfind).
      exists (x :: pre), it, post. simpl. rewrite Hx. simpl.
      repeat split; auto.
Qed.

(** ** Claims on the validator *)

(** C1. For every request body in which orderId is missing, or cart is
    missing or is not a non-empty array, or formData is missing, or
    paymentId is missing, the handler answers 400 with the reason
    "Missing required order data", and the provider is not called. *)
Theorem missing_order_data_rejected (js : engine) (cfg : config) (w : world)
  (req_body : value) :
  nullish req_body = false ->
  prop req_body "orderId" = Undefined
  \/ prop req_body "cart" = Undefined
  \/ nonempty_array (prop req_body "cart") = false
  \/ prop req_body "formData" = Undefined
  \/ prop req_body "paymentId" = Undefined ->
  respond (create_order js cfg w req_body)
    = Ok {| status := 400;
            body := Obj [("success", Boolean false);
                         ("error", Str "Missing required order data")] |}
  /\ outbound (create_order js cfg w req_body) = [].
Proof.
  intros Hn H.
  destruct (destructure_ok req_body Hn)
    as (sub & Hd & Ho & Hc & Hf & _ & _ & _ & Hp).
  apply (check1_rejects js cfg w req_body sub Hd).
  unfold missing_required. rewrite Ho, Hc, Hf, Hp.
  destruct H as [H | [H | [H | [H | H]]]].
  - rewrite H. reflexivity.
  - rewrite H. simpl. orb_true.
  - destruct (prop req_body "cart") as [| | b | f | s | [|x l] | ps];
      try discriminate H; simpl; orb_true.
  - rewrite H. simpl. orb_true.
  - rewrite H. simpl. orb_true.
Qed.

(** X18. The checks run in a fixed order and the first failing one decides
    the answer, whatever the later ones would say: missing order data, then
    incomplete shipping details, then, in a cart without [null], [false], 0
    or empty-string elements, an item that fails the per-item test, then, in
    a cart of valid items, a total that is not a finite number or is
    negative. *)
Theorem checks_in_order_on_truthy_carts (js : engine) (cfg : config) (w : world)
  (req_body : value) (sub : submission) :
  destructure req_body = Ok sub ->
  (missing_required sub = true ->
   respond (create_order js cfg w req_body)
     = Ok {| status := 400;
             body := Obj [("success", Boolean false);
                          ("error", Str "Missing required order data")] |})
  /\ (missing_required sub = false ->
      incomplete_form (formData sub) = true ->
      respond (create_order js cfg w req_body)
        = Ok {| status := 400;
                body := Obj [("success", Boolean false);
                             ("error", Str "Incomplete shipping details")] |})
  /\ (missing_required sub = false ->
      incomplete_form (formData sub) = false ->
      forallb truthy (elements (cart sub)) = true ->
      (exists x, In x (elements (cart sub)) /\ invalid_item js x = Ok true) ->
      respond (create_order js cfg w req_body)
        = Ok {| status := 400;
                body := Obj [("success", Boolean false);
                             ("error", Str "Invalid cart item data")] |})
  /\ (missing_required sub = false ->
      incomplete_form (formData sub) = false ->
      forallb (valid_item js) (elements (cart sub)) = true ->
      Number_isFinite (totalAmount sub) = false
      \/ (exists f, totalAmount sub = Num f /\ (f <? 0)%float = true) ->
      respond (create_order js cfg w req_body)
        = Ok {| status := 400;
                body := Obj [("success", Boolean false);
                             ("error",
                              Str "Total amount must be a valid non-negative number")] |}).
Proof.
  intros Hd. split; [|split; [|split]].
  - intros Hm. apply (check1_rejects js cfg w req_body sub Hd Hm).
  - intros Hm Hi. apply (check2_rejects js cfg w req_body sub Hd Hm Hi).
  - intros Hm Hi Hall Hex.
    destruct (find_on_truthy_elements js _ Hall Hex)
      as (pre & it & post & _ & _ & _ & Ht & Hfind).
    apply (check3_rejects js cfg w req_body sub it Hd Hm Hi Hfind Ht).
  - intros Hm Hi Hv Hb.
    apply (check4_rejects js cfg w req_body sub Undefined Hd Hm Hi
             (find_all_valid js _ Hv) eq_refl).
    rewrite invalid_total_spec. f_equal.
    destruct Hb as [Hb | (f & -> & Hb)].
    + rewrite Hb. reflexivity.
    + rewrite Hb. apply orb_true_r.
Qed.

(** ** Forwarding *)

(** The validator never calls the provider. *)
Lemma validate_calls (js : engine) (sub : submission) (eff : effects) :
  calls (snd (validate js sub eff)) = calls eff.
Proof.
  unfold validate, bind, lift, logger, res_json, ret.
  destruct (missing_required sub); [reflexivity|].
  destruct (incomplete_form (formData sub)); [reflexivity|].
  destruct (Array_find (invalid_item js) (elements (cart sub))) as [it|e];
    [|reflexivity].
  destruct (truthy it); [reflexivity|].
  rewrite invalid_total_spec.
  destruct (_ || _); [reflexivity|].
  destruct (strict_eq_num (totalAmount sub) 0); reflexivity.
Qed.

Lemma valid_submission_passes (js : engine) (sub : submission) :
  valid_submission js sub = true -> passes js sub.
Proof.
  unfold valid_submission, passes. intros H.
  apply andb_true_iff in H as [H Ht].
  apply andb_true_iff in H as [H Hc].
  apply andb_true_iff in H as [Hm Hi].
  apply negb_true_iff in Hm. apply negb_true_iff in Hi.
  unfold validate, bind, lift. rewrite Hm, Hi, (find_all_valid js _ Hc). simpl.
  destruct (invalid_total js (totalAmount sub)) as [[|]|]; try discriminate.
  destruct (strict_eq_num (totalAmount sub) 0); reflexivity.
Qed.

Lemma create_order_passes (js : engine) (cfg : config) (w : world)
  (req_body : value) (sub : submission) :
  destructure req_body = Ok sub ->
  passes js sub ->
  create_order js cfg w req_body no_effects
  = try_catch (forward js cfg w sub) (catch_block)
      (snd (validate js sub no_effects)).
Proof.
  unfold passes. intros Hd Hp.
  unfold create_order, try_catch, try_block, bind, lift. rewrite Hd.
  destruct (validate js sub no_effects) as [r eff]. simpl in Hp. subst r.
  reflexivity.
Qed.

(** The catch block always answers and calls nobody. *)
Lemma catch_block_calls (e : js_error) (eff : effects) :
  calls (snd (catch_block e eff)) = calls eff
  /\ exists r, fst (catch_block e eff) = Ok r.
Proof.
  unfold catch_block, bind, logger, res_json, ret.
  destruct (err_response e) as [[st d]|]; simpl.
  - destruct (Z.eqb st 401); [|destruct (Z.eqb st 422)];
      (split; [reflexivity | eexists; reflexivity]).
  - split; [reflexivity | eexists; reflexivity].
Qed.

(** Once the payload is mapped, exactly one request leaves, whatever the
    provider answers. *)
Lemma forward_calls (js : engine) (cfg : config) (w : world)
  (sub : submission) (p : Payload.t) (eff : effects) :
  map_payload js w sub = Ok p ->
  calls (snd (forward js cfg w sub eff)) = (calls eff ++ [create_adhoc cfg p])%list.
Proof.
  unfold map_payload, forward, bind, lift, logger, axios_post, res_json, ret.
  destruct (Array_map (order_item js) (elements (cart sub))) as [items|e];
    simpl; [|discriminate].
  intros ->. simpl.
  destruct (provider w (create_adhoc cfg p)) as [r|e]; simpl; [|reflexivity].
  destruct (get (resp_data r) "order_id"); reflexivity.
Qed.

Lemma forward_rejected (js : engine) (cfg : config) (w : world)
  (sub : submission) (p : Payload.t) (e : js_error) (eff : effects) :
  map_payload js w sub = Ok p ->
  provider w (create_adhoc cfg p) = Rejected e ->
  fst (forward js cfg w sub eff) = Throw e.
Proof.
  unfold map_payload, forward, bind, lift, logger, axios_post, res_json, ret.
  destruct (Array_map (order_item js) (elements (cart sub))) as [items|e'];
    simpl; [|discriminate].
  intros -> Hp. simpl. rewrite Hp. reflexivity.
Qed.

Lemma forward_resolved (js : engine) (cfg : config) (w : world)
  (sub : submission) (p : Payload.t) (r : axios_response) (eff : effects) :
  map_payload js w sub = Ok p ->
  provider w (create_adhoc cfg p) = Resolved r ->
  nullish (resp_data r) = false ->
  fst (forward js cfg w sub eff)
  = Ok {| status := 200;
          body := Obj [("success", Boolean true);
                       ("shiprocketOrderId", prop (resp_data r) "order_id");
                       ("message", Str "Order created successfully in Shiprocket")] |}.
Proof.
  unfold map_payload, forward, bind, lift, logger, axios_post, res_json, ret, get.
  destruct (Array_map (order_item js) (elements (cart sub))) as [items|e'];
    simpl; [|discriminate].
  intros -> Hp Hn. simpl. rewrite Hp, Hn. reflexivity.
Qed.

(** The run of the handler on a submission that passed and was mapped. *)
Lemma passed_and_mapped (js : engine) (cfg : config) (w : world)
  (req_body : value) (sub : submission) (p : Payload.t) :
  destructure req_body = Ok sub ->
  passes js sub ->
  map_payload js w sub = Ok p ->
  outbound (create_order js cfg w req_body) = [create_adhoc cfg p]
  /\ (forall r, provider w (create_adhoc cfg p) = Resolved r ->
        nullish (resp_data r) = false ->
        respond (create_order js cfg w req_body)
        = Ok {| status := 200;
                body := Obj [("success", Boolean true);
                             ("shiprocketOrderId", prop (resp_data r) "order_id");
                             ("message",
                              Str "Order created successfully in Shiprocket")] |})
  /\ (forall e, provider w (create_adhoc cfg p) = Rejected e ->
        respond (create_order js cfg w req_body)
        = fst (catch_block e (snd (forward js cfg w sub
                                     (snd (validate js sub no_effects)))))).
Proof.
  intros Hd Hp Hm.
  unfold respond, outbound. rewrite (create_order_passes js cfg w _ _ Hd Hp).
  set (eff1 := snd (validate js sub no_effects)).
  assert (Hc1 : calls eff1 = []) by apply (validate_calls js sub no_effects).
  pose proof (forward_calls js cfg w sub p eff1 Hm) as Hc.
  rewrite Hc1 in Hc. simpl in Hc.
  unfold try_catch.
  destruct (forward js cfg w sub eff1) as [[r|e] eff2] eqn:Hf; simpl in *.
  - split; [exact Hc|]. split.
    + intros r' Hr Hn.
      pose proof (forward_resolved js cfg w sub p r' eff1 Hm Hr Hn) as H.
      rewrite Hf in H. exact H.
    + intros e Hr.
      pose proof (forward_rejected js cfg w sub p e eff1 Hm Hr) as H.
      rewrite Hf in H. discriminate.
  - destruct (catch_block_calls e eff2) as [Hcc _].
    split; [rewrite Hcc; exact Hc|]. split.
    + intros r' Hr Hn.
      pose proof (forward_resolved js cfg w sub p r' eff1 Hm Hr Hn) as H.
      rewrite Hf in H. discriminate.
    + intros e' Hr.
      pose proof (forward_rejected js cfg w sub p e' eff1 Hm Hr) as H.
      rewrite Hf in H. simpl in H. injection H as ->. reflexivity.
Qed.

(** C3. On a submission that got past the first three checks: a total
    amount that is not a finite number, or is negative (-1 for one), is
    answered 400 with the reason "Total amount must be a valid non-negative
    number" and nothing is sent; a total amount of exactly 0 is let through
    with one warning in the log, the mapped payload is sent, and the
    provider's success becomes the 200 response. *)
Theorem total_amount_check (js : engine) (cfg : config) (w : world)
  (req_body : value) (sub : submission) (item : value) :
  destructure req_body = Ok sub ->
  missing_required sub = false ->
  incomplete_form (formData sub) = false ->
  Array_find (invalid_item js) (elements (cart sub)) = Ok item ->
  truthy item = false ->
  (Number_isFinite (totalAmount sub) = false
   \/ (exists f, totalAmount sub = Num f /\ (f <? 0)%float = true) ->
   respond (create_order js cfg w req_body)
     = Ok {| status := 400;
             body := Obj [("success", Boolean false);
                          ("error",
                           Str "Total amount must be a valid non-negative number")] |}
   /\ outbound (create_order js cfg w req_body) = [])
  /\ (totalAmount sub = Num (-1) ->
      respond (create_order js cfg w req_body)
        = Ok {| status := 400;
                body := Obj [("success", Boolean false);
                             ("error",
                              Str "Total amount must be a valid non-negative number")] |}
      /\ outbound (create_order js cfg w req_body) = [])
  /\ (totalAmount sub = Num 0 ->
      validate js sub no_effects
        = (Ok None,
           {| log := [mk_log warn "Total amount is zero, proceeding with warning"
                        [("orderId", MVal (orderId sub));
                         ("totalAmount", MVal (Num 0))]];
              calls := [] |})
      /\ forall p, map_payload js w sub = Ok p ->
           outbound (create_order js cfg w req_body) = [create_adhoc cfg p]
           /\ Payload.sub_total p = Num 0
           /\ forall r, provider w (create_adhoc cfg p) = Resolved r ->
                nullish (resp_data r) = false ->
                respond (create_order js cfg w req_body)
                = Ok {| status := 200;
                        body := Obj [("success", Boolean true);
                                     ("shiprocketOrderId",
                                      prop (resp_data r) "order_id");
                                     ("message",
                                      Str "Order created successfully in Shiprocket")] |}).
Proof.
  intros Hd Hm Hi Hf Ht.
  assert (Hbad : Number_isFinite (totalAmount sub) = false
                 \/ (exists f, totalAmount sub = Num f /\ (f <? 0)%float = true) ->
                 invalid_total js (totalAmount sub) = Ok true).
  { intros Hb. rewrite invalid_total_spec. f_equal.
    destruct Hb as [Hb | (f & -> & Hb)]; rewrite Hb; [reflexivity | orb_true]. }
  split; [|split].
  - intros Hb.
    apply (check4_rejects js cfg w req_body sub item Hd Hm Hi Hf Ht (Hbad Hb)).
  - intros Hb.
    apply (check4_rejects js cfg w req_body sub item Hd Hm Hi Hf Ht).
    apply Hbad. right. exists (-1)%float. split; [exact Hb | reflexivity].
  - intros Hz.
    assert (Hv : validate js sub no_effects
                 = (Ok None,
                    {| log := [mk_log warn "Total amount is zero, proceeding with warning"
                                 [("orderId", MVal (orderId sub));
                                  ("totalAmount", MVal (Num 0))]];
                       calls := [] |})).
    { unfold validate, bind, lift. rewrite Hm, Hi, Hf, Ht, Hz. reflexivity. }
    split; [exact Hv|].
    intros p Hp.
    assert (Hpass : passes js sub) by (unfold passes; rewrite Hv; reflexivity).
    destruct (passed_and_mapped js cfg w req_body sub p Hd Hpass Hp)
      as (Ho & Hr & _).
    split; [exact Ho|]. split; [|exact Hr].
    payload_inv Hp. simpl. exact Hz.
Qed.

(** C7. When the call to the provider fails: a 401 gives status 401 with the
    fixed authentication body, a 422 gives status 422 with the provider's
    data under [details], anything else (another status, no response at all)
    gives status 500 with the error's message under [details]; in each case
    the one request of the call is all that was sent. *)
Theorem provider_failure_translated (js : engine) (cfg : config) (w : world)
  (req_body : value) (sub : submission) (p : Payload.t) (e : js_error) :
  destructure req_body = Ok sub ->
  passes js sub ->
  map_payload js w sub = Ok p ->
  provider w (create_adhoc cfg p) = Rejected e ->
  outbound (create_order js cfg w req_body) = [create_adhoc cfg p]
  /\ (forall d, err_response e = Some (401%Z, d) ->
      respond (create_order js cfg w req_body)
      = Ok {| status := 401;
              body := Obj [("success", Boolean false);
                           ("error", Str "Shiprocket authentication failed");
                           ("details", Str "Invalid or expired Shiprocket token")] |})
  /\ (forall d, err_response e = Some (422%Z, d) ->
      respond (create_order js cfg w req_body)
      = Ok {| status := 422;
              body := Obj [("success", Boolean false);
                           ("error", Str "Invalid order data for Shiprocket");
                           ("details", d)] |})
  /\ (err_response e = None
      \/ (exists st d, err_response e = Some (st, d) /\ st <> 401%Z /\ st <> 422%Z) ->
      respond (create_order js cfg w req_body)
      = Ok {| status := 500;
              body := Obj [("success", Boolean false);
                           ("error", Str "Failed to create order in Shiprocket");
                           ("details", Str (err_message e))] |}).
Proof.
  intros Hd Hpass Hp He.
  destruct (passed_and_mapped js cfg w req_body sub p Hd Hpass Hp)
    as (Ho & _ & Hr).
  specialize (Hr e He). rewrite Hr. clear Hr.
  split; [exact Ho|].
  unfold catch_block, bind, logger, res_json, ret.
  split; [|split].
  - intros d Hs. rewrite Hs. reflexivity.
  - intros d Hs. rewrite Hs. reflexivity.
  - intros [Hs | (st & d & Hs & H1 & H2)]; rewrite Hs; simpl; [reflexivity|].
    apply Z.eqb_neq in H1. apply Z.eqb_neq in H2. rewrite H1, H2. reflexivity.
Qed.

Lemma incomplete_form_field (fd : value) (k : string) :
  In k ["name"; "email"; "phone"; "address"; "pincode"; "state"] ->
  truthy (prop fd k) = false ->
  incomplete_form fd = true.
Proof.
  unfold incomplete_form. simpl.
  intros [<- | [<- | [<- | [<- | [<- | [<- | []]]]]]] H; rewrite H; simpl; orb_true.
Qed.

(** X17. The presence checks are truthiness checks. An orderId or paymentId
    that is there but falsy (the empty string, 0) is answered like an absent
    one, with "Missing required order data"; a field of formData that is
    there but falsy is answered like an absent one, with "Incomplete
    shipping details" (or with "Missing required order data" when the first
    check fails already); and in a cart without [null], [false], 0 or
    empty-string elements, an item whose id or name is falsy (0, the empty
    string) is answered with "Invalid cart item data". *)
Theorem presence_is_truthiness (js : engine) (cfg : config) (w : world)
  (req_body : value) (sub : submission) :
  destructure req_body = Ok sub ->
  (truthy (Str "") = false /\ truthy (Num 0) = false /\ truthy Undefined = false)
  /\ (truthy (orderId sub) = false \/ truthy (paymentId sub) = false ->
      respond (create_order js cfg w req_body)
        = Ok {| status := 400;
                body := Obj [("success", Boolean false);
                             ("error", Str "Missing required order data")] |})
  /\ ((exists k, In k ["name"; "email"; "phone"; "address"; "pincode"; "state"]
                  /\ truthy (prop (formData sub) k) = false) ->
      respond (create_order js cfg w req_body)
        = Ok {| status := 400;
                body := Obj [("success", Boolean false);
                             ("error",
                              Str (if missing_required sub
                                   then "Missing required order data"
                                   else "Incomplete shipping details"))] |})
  /\ (missing_required sub = false ->
      incomplete_form (formData sub) = false ->
      forallb truthy (elements (cart sub)) = true ->
      (exists it, In it (elements (cart sub))
                  /\ (truthy (prop it "id") = false
                      \/ truthy (prop it "name") = false)) ->
      respond (create_order js cfg w req_body)
        = Ok {| status := 400;
                body := Obj [("success", Boolean false);
                             ("error", Str "Invalid cart item data")] |}).
Proof.
  intros Hd. split; [repeat split|]. split; [|split].
  - intros H. apply (check1_rejects js cfg w req_body sub Hd).
    unfold missing_required. destruct H as [H | H]; rewrite H; simpl; orb_true.
  - intros (k & Hk & Hf). destruct (missing_required sub) eqn:Hm.
    + apply (check1_rejects js cfg w req_body sub Hd Hm).
    + apply (check2_rejects js cfg w req_body sub Hd Hm).
      apply (incomplete_form_field _ k Hk Hf).
  - intros Hm Hi Hall (it & Hin & Hfalsy).
    assert (Hinv : invalid_item js it = Ok true).
    { rewrite forallb_forall in Hall.
      rewrite (invalid_item_spec js it (truthy_not_nullish it (Hall it Hin))).
      f_equal. destruct Hfalsy as [H | H]; rewrite H; simpl; orb_true. }
    destruct (find_on_truthy_elements js _ Hall (ex_intro _ it (conj Hin Hinv)))
      as (pre & first & post & _ & _ & _ & Ht & Hfind).
    apply (check3_rejects js cfg w req_body sub first Hd Hm Hi Hfind Ht).
Qed.

(** ** The payload mapper *)

Lemma order_item_inv (js : engine) (item : value) (oi : OrderItem.t) :
  order_item js item = Ok oi ->
  nullish item = false
  /\ exists id_text,
       ToString js (prop item "id") = Ok id_text
       /\ oi = {| OrderItem.name := prop item "name";
                  OrderItem.sku := "SKU-" ++ id_text;
                  OrderItem.units := prop item "quantity";
                  OrderItem.selling_price := prop item "price";
                  OrderItem.discount := 0;
                  OrderItem.tax := 0;
                  OrderItem.hsn := "4901" |}.
Proof.
  unfold order_item, get. destruct (nullish item); simpl; [discriminate|].
  destruct (ToString js (prop item "id")) as [s|e]; simpl; [|discriminate].
  intros H. injection H as <-. split; [reflexivity|]. exists s. auto.
Qed.

Lemma Array_map_order_item (js : engine) (l : list value) :
  forall items, Array_map (order_item js) l = Ok items ->
  Forall2 (maps_to js) l items.
Proof.
  induction l as [|x l IH]; simpl; intros items H.
  - injection H as <-. constructor.
  - destruct (order_item js x) as [y|e] eqn:Hx; simpl in H; [|discriminate].
    destruct (Array_map (order_item js) l) as [ys|e]; simpl in H; [|discriminate].
    injection H as <-. constructor.
    + apply (order_item_inv js x y Hx).
    + apply IH. reflexivity.
Qed.

Lemma ToString_primitive (js : engine) (v : value) :
  primitive v = true -> exists s, ToString js v = Ok s.
Proof.
  destruct v as [| | [|] | f | s | l | ps]; simpl; intros H;
    try discriminate; eauto.
Qed.

Lemma Array_map_total (js : engine) (l : list value) :
  forallb (valid_item js) l = true ->
  forallb (fun item => primitive (prop item "id")) l = true ->
  exists items, Array_map (order_item js) l = Ok items.
Proof.
  induction l as [|x l IH]; simpl; intros Hv Hp; [eauto|].
  apply andb_true_iff in Hv as [Hx Hv]. apply andb_true_iff in Hp as [Hpx Hp].
  destruct (IH Hv Hp) as [items ->].
  destruct (valid_item_inv js x Hx) as (Hn & _).
  destruct (ToString_primitive js _ Hpx) as [s Hs].
  unfold order_item, get. rewrite Hn. simpl. rewrite Hs. simpl. eauto.
Qed.

(** Over valid items the accumulator of [cart.reduce] stays a number. *)
Lemma Array_reduce_valid (js : engine) (l : list value) :
  forallb (valid_item js) l = true ->
  exists qs,
    map (fun item => prop item "quantity") l = map Num qs
    /\ forall a, Array_reduce (add_quantity js) l (Num a)
                 = Ok (Num (fold_left PrimFloat.add qs a)).
Proof.
  induction l as [|x l IH]; simpl; intros Hv.
  - exists []. split; reflexivity.
  - apply andb_true_iff in Hv as [Hx Hv].
    destruct (IH Hv) as (qs & Hqs & Hred).
    destruct (valid_item_inv js x Hx) as (Hn & _ & _ & _ & q & Hq & _).
    exists (q :: qs). split.
    + simpl. rewrite Hq, Hqs. reflexivity.
    + intros a. unfold add_quantity at 1. unfold get. rewrite Hn, Hq. simpl.
      apply Hred.
Qed.

Lemma map_payload_total (js : engine) (w : world) (sub : submission) :
  forallb (valid_item js) (elements (cart sub)) = true ->
  forallb (fun item => primitive (prop item "id")) (elements (cart sub)) = true ->
  exists p, map_payload js w sub = Ok p.
Proof.
  intros Hv Hp. unfold map_payload, payload.
  destruct (Array_map_total js _ Hv Hp) as [items ->]. simpl.
  destruct (Array_reduce_valid js _ Hv) as (qs & _ & Hred).
  rewrite Hred. simpl. eauto.
Qed.

Lemma Array_map_non_null (js : engine) (l : list value) :
  forall items, Array_map (order_item js) l = Ok items ->
  Forall (fun x => nullish x = false) l.
Proof.
  induction l as [|x l IH]; simpl; intros items H; [constructor|].
  destruct (order_item js x) as [y|e] eqn:Hx; simpl in H; [|discriminate].
  destruct (Array_map (order_item js) l) as [ys|e]; simpl in H; [|discriminate].
  constructor.
  - apply (order_item_inv js x y Hx).
  - apply (IH ys). reflexivity.
Qed.

(** Whenever the quantities are numbers, [cart.reduce] adds them up. *)
Lemma Array_reduce_numbers (js : engine) (l : list value) :
  Forall (fun x => nullish x = false) l ->
  forall qs, map (fun item => prop item "quantity") l = map Num qs ->
  forall a, Array_reduce (add_quantity js) l (Num a)
            = Ok (Num (fold_left PrimFloat.add qs a)).
Proof.
  induction 1 as [|x l Hx _ IH]; intros [|q qs] Hqs a; simpl in Hqs;
    try discriminate; [reflexivity|].
  injection Hqs as Hq Hqs. simpl.
  unfold add_quantity at 1. unfold get. rewrite Hx, Hq. simpl.
  apply IH, Hqs.
Qed.

(** C5. Every payload the mapper produces has one order item per cart
    item, with the item's name, the sku "SKU-" followed by the id, the
    quantity as units, the price as selling price, no discount, no tax and
    hsn "4901"; its billing and shipping fields both come from formData and
    agree; the payment method is "Prepaid"; the box is 30 by 20 by 5; the
    weight is 0.5 times the sum of the quantities; and an absent shipping
    cost or coupon discount becomes 0. For a valid submission the quantities
    are numbers, and the payload exists whenever the ids are primitive
    values. *)
Theorem payload_mapping (js : engine) (w : world) (sub : submission) :
  (valid_submission js sub = true ->
   passes js sub
   /\ (exists qs,
         map (fun item => prop item "quantity") (elements (cart sub)) = map Num qs)
   /\ (forallb (fun item => primitive (prop item "id")) (elements (cart sub)) = true ->
       exists p, map_payload js w sub = Ok p))
  /\ forall p, map_payload js w sub = Ok p ->
       Forall2 (maps_to js) (elements (cart sub)) (Payload.order_items p)
       /\ (Payload.billing_customer_name p = prop (formData sub) "name"
           /\ Payload.billing_address p = prop (formData sub) "address"
           /\ Payload.billing_city p = js_or (prop (formData sub) "city") (Str "")
           /\ Payload.billing_pincode p = prop (formData sub) "pincode"
           /\ Payload.billing_state p = prop (formData sub) "state"
           /\ Payload.billing_email p = prop (formData sub) "email"
           /\ Payload.billing_phone p = prop (formData sub) "phone")
       /\ (Payload.shipping_customer_name p = Payload.billing_customer_name p
           /\ Payload.shipping_last_name p = Payload.billing_last_name p
           /\ Payload.shipping_address p = Payload.billing_address p
           /\ Payload.shipping_city p = Payload.billing_city p
           /\ Payload.shipping_pincode p = Payload.billing_pincode p
           /\ Payload.shipping_state p = Payload.billing_state p
           /\ Payload.shipping_country p = Payload.billing_country p
           /\ Payload.shipping_email p = Payload.billing_email p
           /\ Payload.shipping_phone p = Payload.billing_phone p)
       /\ Payload.payment_method p = "Prepaid"
       /\ (Payload.length p = 30%float /\ Payload.breadth p = 20%float
           /\ Payload.height p = 5%float)
       /\ (forall qs,
             map (fun item => prop item "quantity") (elements (cart sub)) = map Num qs ->
             Payload.weight p = Num (0.5 * sum_quantities qs))
       /\ (shippingCost sub = Undefined -> Payload.shipping_charges p = Num 0)
       /\ (couponDiscount sub = Undefined -> Payload.total_discount p = Num 0).
Proof.
  split.
  - intros Hvalid.
    assert (Hv : forallb (valid_item js) (elements (cart sub)) = true).
    { unfold valid_submission in Hvalid.
      apply andb_true_iff in Hvalid as [Hvalid _].
      apply andb_true_iff in Hvalid as [_ Hc]. exact Hc. }
    split; [apply (valid_submission_passes js sub Hvalid)|]. split.
    + destruct (Array_reduce_valid js _ Hv) as (qs & Hqs & _). eauto.
    + apply (map_payload_total js w sub Hv).
  - intros p Hp. payload_inv Hp. simpl.
    split; [apply (Array_map_order_item js _ _ Hitems)|].
    split; [tauto|]. split; [tauto|]. split; [reflexivity|]. split; [tauto|].
    split; [|split; intros ->; reflexivity].
    intros qs Hqs.
    rewrite (Array_reduce_numbers js _ (Array_map_non_null js _ _ Hitems) qs Hqs)
      in Htotal.
    injection Htotal as <-. simpl in Hwt. injection Hwt as <-. reflexivity.
Qed.

(** C6. The example submission is mapped to a payload with sub_total 200,
    weight 1 and exactly one order item, with sku "SKU-B1", 2 units and
    selling price 100; that payload is what the handler sends. *)
Theorem example_submission_mapped (js : engine) (cfg : config) (w : world) :
  destructure example_body = Ok example_submission
  /\ exists p oi,
       map_payload js w example_submission = Ok p
       /\ Payload.sub_total p = Num 200
       /\ Payload.weight p = Num 1
       /\ Payload.order_items p = [oi]
       /\ OrderItem.sku oi = "SKU-B1"
       /\ OrderItem.units oi = Num 2
       /\ OrderItem.selling_price oi = Num 100
       /\ outbound (create_order js cfg w example_body) = [create_adhoc cfg p].
Proof.
  split; [reflexivity|].
  assert (Hm : exists p, map_payload js w example_submission = Ok p
                 /\ Payload.sub_total p = Num 200
                 /\ Payload.weight p = Num 1
                 /\ exists oi, Payload.order_items p = [oi]
                      /\ OrderItem.sku oi = "SKU-B1"
                      /\ OrderItem.units oi = Num 2
                      /\ OrderItem.selling_price oi = Num 100).
  { eexists. split; [reflexivity|]. simpl.
    split; [reflexivity|]. split; [reflexivity|].
    eexists. split; [reflexivity|]. simpl. auto. }
  destruct Hm as (p & Hp & Hs & Hw & oi & Hi & Hsku & Hu & Hpr).
  exists p, oi. repeat (split; [assumption|]).
  apply (passed_and_mapped js cfg w example_body example_submission p);
    [reflexivity | reflexivity | exact Hp].
Qed.

(** The two fields that come from outside the submission. *)
Lemma map_payload_restamp (js : engine) (w1 w2 : world) (sub : submission) :
  map_payload js w2 sub
  = (p <~ map_payload js w1 sub ;;
     Ok (restamp (orderDate w2)
           (env_or (env_SHIPROCKET_PICKUP_LOCATION w2) "Primary") p)).
Proof.
  unfold map_payload, payload.
  destruct (Array_map (order_item js) (elements (cart sub))) as [items|e];
    simpl; [|reflexivity].
  destruct (Array_reduce (add_quantity js) (elements (cart sub)) (Num 0))
    as [total|e]; simpl; [|reflexivity].
  destruct (js_mul js (Num 0.5) total) as [wt|e]; reflexivity.
Qed.

(** C8 as stated fails: the same submission mapped on two different days
    gives two different payloads. *)
Lemma mapping_depends_on_the_clock :
  map_payload test_engine (test_world accepting) example_submission
  <> map_payload test_engine next_day_world example_submission.
Proof.
  intros H.
  assert (H' := f_equal (fun r => match r with
                                  | Ok p => Payload.order_date p
                                  | Throw _ => ""
                                  end) H).
  vm_compute in H'. discriminate H'.
Qed.

(** C8, amended. The mapper is a function of the submission, of the current
    date and of the pickup location configured in the environment, and of
    nothing else: on the same submission, two evaluations agree whenever the
    date and the pickup location agree, whatever the provider, and otherwise
    differ in [order_date] and [pickup_location] only; the weight and the
    order items, with their skus, are the same in all of them. *)
Theorem mapping_deterministic (js : engine) (w1 w2 : world) (sub : submission) :
  (orderDate w1 = orderDate w2 ->
   env_or (env_SHIPROCKET_PICKUP_LOCATION w1) "Primary"
   = env_or (env_SHIPROCKET_PICKUP_LOCATION w2) "Primary" ->
   map_payload js w1 sub = map_payload js w2 sub)
  /\ (forall p1, map_payload js w1 sub = Ok p1 ->
      map_payload js w2 sub
      = Ok (restamp (orderDate w2)
              (env_or (env_SHIPROCKET_PICKUP_LOCATION w2) "Primary") p1))
  /\ (forall e, map_payload js w1 sub = Throw e -> map_payload js w2 sub = Throw e)
  /\ (forall p1 p2, map_payload js w1 sub = Ok p1 -> map_payload js w2 sub = Ok p2 ->
      Payload.weight p1 = Payload.weight p2
      /\ Payload.order_items p1 = Payload.order_items p2).
Proof.
  split; [|split; [|split]].
  - intros Hd Hl. rewrite (map_payload_restamp js w1 w2 sub), <- Hd, <- Hl.
    unfold map_payload, payload.
    destruct (Array_map (order_item js) (elements (cart sub))) as [items|e];
      simpl; [|reflexivity].
    destruct (Array_reduce (add_quantity js) (elements (cart sub)) (Num 0))
      as [total|e]; simpl; [|reflexivity].
    destruct (js_mul js (Num 0.5) total) as [wt|e]; reflexivity.
  - intros p1 H1. rewrite (map_payload_restamp js w1 w2 sub), H1. reflexivity.
  - intros e H1. rewrite (map_payload_restamp js w1 w2 sub), H1. reflexivity.
  - intros p1 p2 H1 H2.
    rewrite (map_payload_restamp js w1 w2 sub), H1 in H2. simpl in H2.
    injection H2 as <-. split; reflexivity.
Qed.

(** ** What the validator does not look at *)

Lemma forward_status (js : engine) (cfg : config) (w : world)
  (sub : submission) (eff : effects) (r : http_response) :
  fst (forward js cfg w sub eff) = Ok r -> status r = 200%Z.
Proof.
  unfold forward, bind, lift, logger, axios_post, res_json, ret.
  destruct (Array_map (order_item js) (elements (cart sub))) as [items|e];
    simpl; [|discriminate].
  destruct (payload js w sub items) as [p|e]; simpl; [|discriminate].
  destruct (provider w (create_adhoc cfg p)) as [rs|e]; simpl; [|discriminate].
  destruct (get (resp_data rs) "order_id") as [v|e]; simpl; [|discriminate].
  intros H. injection H as <-. reflexivity.
Qed.

Lemma catch_block_status (e : js_error) (eff : effects) (r : http_response) :
  fst (catch_block e eff) = Ok r ->
  status r = 401%Z \/ status r = 422%Z \/ status r = 500%Z.
Proof.
  unfold catch_block, bind, logger, res_json, ret.
  destruct (err_response e) as [[st d]|]; simpl.
  - destruct (Z.eqb st 401); [|destruct (Z.eqb st 422)];
      intros H; injection H as <-; simpl; auto.
  - intros H; injection H as <-; simpl; auto.
Qed.

(** Past the validator no response is a 400. *)
Lemma passed_never_400 (js : engine) (cfg : config) (w : world)
  (req_body : value) (sub : submission) (r : http_response) :
  destructure req_body = Ok sub ->
  passes js sub ->
  respond (create_order js cfg w req_body) = Ok r ->
  status r <> 400%Z.
Proof.
  intros Hd Hp. unfold respond.
  rewrite (create_order_passes js cfg w _ _ Hd Hp). unfold try_catch.
  destruct (forward js cfg w sub (snd (validate js sub no_effects)))
    as [[r'|e] eff] eqn:Hf; simpl; intros H.
  - injection H as <-.
    assert (Hs := forward_status js cfg w sub
                    (snd (validate js sub no_effects)) r').
    rewrite Hf in Hs.
    rewrite (Hs eq_refl). discriminate.
  - destruct (catch_block_status e eff r H) as [-> | [-> | ->]]; discriminate.
Qed.

Lemma validate_ignores_charges (js : engine) (sub : submission)
  (sc cd : value) (eff : effects) :
  validate js (with_charges sub sc cd) eff = validate js sub eff.
Proof. reflexivity. Qed.

(** C10. Shipping cost and coupon discount are not validated. Whatever
    their values, the validator gives the same verdict; a falsy value
    (absent, null, 0, NaN, the empty string, false) becomes 0 in
    [shipping_charges] and [total_discount], a truthy one of any kind is
    copied unchanged, and no response of a submission that passed is a 400. *)
Theorem optional_charges_unvalidated (js : engine) (cfg : config) (w : world)
  (req_body : value) (sub : submission) (p : Payload.t) :
  destructure req_body = Ok sub ->
  passes js sub ->
  map_payload js w sub = Ok p ->
  Forall (fun v => truthy v = false)
    [Undefined; Null; Num 0; Num nan; Str ""; Boolean false]
  /\ (truthy (shippingCost sub) = false -> Payload.shipping_charges p = Num 0)
  /\ (truthy (shippingCost sub) = true ->
      Payload.shipping_charges p = shippingCost sub)
  /\ (truthy (couponDiscount sub) = false -> Payload.total_discount p = Num 0)
  /\ (truthy (couponDiscount sub) = true ->
      Payload.total_discount p = couponDiscount sub)
  /\ (forall sc cd,
        passes js (with_charges sub sc cd)
        /\ exists p', map_payload js w (with_charges sub sc cd) = Ok p'
             /\ Payload.shipping_charges p' = js_or sc (Num 0)
             /\ Payload.total_discount p' = js_or cd (Num 0))
  /\ (forall r, respond (create_order js cfg w req_body) = Ok r ->
      status r <> 400%Z).
Proof.
  intros Hd Hpass Hp.
  split; [repeat constructor|].
  assert (Hfields : Payload.shipping_charges p = js_or (shippingCost sub) (Num 0)
                    /\ Payload.total_discount p = js_or (couponDiscount sub) (Num 0)).
  { payload_inv Hp. split; reflexivity. }
  destruct Hfields as [Hs Hc]. unfold js_or in Hs, Hc.
  split; [intros H; rewrite H in Hs; exact Hs|].
  split; [intros H; rewrite H in Hs; exact Hs|].
  split; [intros H; rewrite H in Hc; exact Hc|].
  split; [intros H; rewrite H in Hc; exact Hc|].
  split.
  - intros sc cd. split; [exact Hpass|].
    unfold map_payload, payload in Hp |- *. simpl.
    destruct (Array_map _ _) as [items|]; simpl in Hp |- *; [|discriminate].
    destruct (Array_reduce _ _ _) as [total|]; simpl in Hp |- *; [|discriminate].
    destruct (js_mul js (Num 0.5) total) as [wt|]; simpl in Hp |- *; [|discriminate].
    eexists. split; [reflexivity|]. split; reflexivity.
  - intros r. apply (passed_never_400 js cfg w req_body sub r Hd Hpass).
Qed.

(** C2, where the code departs from it. A cart whose only element is the
    number 0 has an item without id, name, price and quantity, yet the check
    lets it through, since [find] returns the element itself and 0 is falsy:
    the order is mapped (with weight NaN) and sent, and no response is the
    400. A cart whose only element is [null] makes the callback throw, and
    the answer is the 500 of the catch block. *)
Theorem falsy_cart_element_slips_through (js : engine) (cfg : config) (w : world) :
  invalid_item js (Num 0) = Ok true
  /\ (exists p,
        outbound (create_order js cfg w (order_with_cart (Arr [Num 0])))
        = [create_adhoc cfg p]
        /\ Payload.weight p = Num nan)
  /\ (forall r,
        respond (create_order js cfg w (order_with_cart (Arr [Num 0]))) = Ok r ->
        status r <> 400%Z)
  /\ respond (create_order js cfg w (order_with_cart (Arr [Null])))
     = Ok {| status := 500;
             body := Obj [("success", Boolean false);
                          ("error", Str "Failed to create order in Shiprocket");
                          ("details",
                           Str "Cannot read properties of null (reading 'id')")] |}.
Proof.
  split; [reflexivity|].
  assert (Hd : exists sub, destructure (order_with_cart (Arr [Num 0])) = Ok sub
                 /\ passes js sub
                 /\ exists p, map_payload js w sub = Ok p
                      /\ Payload.weight p = Num nan).
  { eexists. split; [reflexivity|]. split; [reflexivity|].
    eexists. split; reflexivity. }
  destruct Hd as (sub & Hd & Hpass & p & Hp & Hw).
  split; [|split].
  - exists p. split; [|exact Hw].
    apply (passed_and_mapped js cfg w _ sub p Hd Hpass Hp).
  - intros r. apply (passed_never_400 js cfg w _ sub r Hd Hpass).
  - reflexivity.
Qed.

(** ** The cart check on well-formed carts *)

(** C2 holds on every cart whose elements are all truthy, so on every cart
    of objects: an offending item is answered with the 400, the item logged
    is the first offending one, and without an offending item the scan finds
    nothing. *)
Lemma cart_check_on_truthy_elements (js : engine) (cfg : config) (w : world)
  (req_body : value) (sub : submission) :
  destructure req_body = Ok sub ->
  missing_required sub = false ->
  incomplete_form (formData sub) = false ->
  forallb truthy (elements (cart sub)) = true ->
  ((exists x, In x (elements (cart sub)) /\ invalid_item js x = Ok true) ->
   exists pre it post,
     elements (cart sub) = (pre ++ it :: post)%list
     /\ Forall (fun x => invalid_item js x = Ok false) pre
     /\ invalid_item js it = Ok true
     /\ respond (create_order js cfg w req_body)
        = Ok {| status := 400; body := Obj invalid_cart_item_data |}
     /\ outbound (create_order js cfg w req_body) = []
     /\ logged (create_order js cfg w req_body)
        = [mk_log error "Invalid cart item detected" [("invalidItem", MVal it)]])
  /\ (Forall (fun x => invalid_item js x = Ok false) (elements (cart sub)) ->
      Array_find (invalid_item js) (elements (cart sub)) = Ok Undefined).
Proof.
  intros Hd Hm Hi Hall. split.
  - intros Hex.
    destruct (find_on_truthy_elements js _ Hall Hex)
      as (pre & it & post & Hsplit & Hpre & Hit & Ht & Hfind).
    exists pre, it, post.
    split; [exact Hsplit|]. split; [exact Hpre|]. split; [exact Hit|].
    apply (check3_rejects js cfg w req_body sub it Hd Hm Hi Hfind Ht).
  - apply Array_find_none.
Qed.

(** ** Concrete runs *)

(** An empty object as body: nothing is there, and nothing is sent. *)
Lemma missing_order_data_rejected_witness :
  respond (create_order test_engine test_config (test_world accepting) (Obj []))
    = Ok {| status := 400;
            body := Obj [("success", Boolean false);
                         ("error", Str "Missing required order data")] |}
  /\ outbound (create_order test_engine test_config (test_world accepting) (Obj []))
     = [].
Proof.
  apply missing_order_data_rejected; [reflexivity | left; reflexivity].
Defined.

(** No paymentId and a bad item: the first check answers. *)
Lemma checks_in_order_on_truthy_carts_witness :
  respond (create_order test_engine test_config (test_world accepting)
             unpaid_order_with_bad_item)
  = Ok {| status := 400;
          body := Obj [("success", Boolean false);
                       ("error", Str "Missing required order data")] |}.
Proof.
  edestruct (checks_in_order_on_truthy_carts test_engine test_config
               (test_world accepting) unpaid_order_with_bad_item)
    as (H1 & _); [reflexivity|].
  apply H1. reflexivity.
Defined.

(** A total of -1 is refused, a total of 0 goes through to the provider. *)
Lemma total_amount_check_witness :
  respond (create_order test_engine test_config (test_world accepting)
             negative_total_order)
  = Ok {| status := 400;
          body := Obj [("success", Boolean false);
                       ("error",
                        Str "Total amount must be a valid non-negative number")] |}
  /\ respond (create_order test_engine test_config (test_world accepting)
                zero_total_order)
     = Ok {| status := 200;
             body := Obj [("success", Boolean true);
                          ("shiprocketOrderId", Num 77);
                          ("message",
                           Str "Order created successfully in Shiprocket")] |}.
Proof.
  split.
  - edestruct (total_amount_check test_engine test_config (test_world accepting)
                 negative_total_order) as (_ & H & _);
      [reflexivity | reflexivity | reflexivity | reflexivity | reflexivity |].
    apply H. reflexivity.
  - edestruct (total_amount_check test_engine test_config (test_world accepting)
                 zero_total_order) as (_ & _ & H);
      [reflexivity | reflexivity | reflexivity | reflexivity | reflexivity |].
    destruct (H eq_refl) as (_ & Hp).
    edestruct Hp as (_ & _ & Hr); [reflexivity|].
    apply (Hr {| resp_status := 200; resp_data := Obj [("order_id", Num 77)] |});
      reflexivity.
Defined.

(** The example order against a provider that rejects the token. *)
Lemma provider_failure_translated_witness :
  outbound (create_order test_engine test_config (test_world unauthorized)
              example_body)
  <> []
  /\ respond (create_order test_engine test_config (test_world unauthorized)
                example_body)
     = Ok {| status := 401;
             body := Obj [("success", Boolean false);
                          ("error", Str "Shiprocket authentication failed");
                          ("details",
                           Str "Invalid or expired Shiprocket token")] |}.
Proof.
  edestruct (provider_failure_translated test_engine test_config
               (test_world unauthorized) example_body)
    as (Ho & H401 & _); [reflexivity | reflexivity | reflexivity | reflexivity |].
  split.
  - rewrite Ho. discriminate.
  - apply (H401 (Obj [("message", Str "Unauthenticated.")])). reflexivity.
Defined.

(** A book whose name is the empty string, behind a valid one. *)
Lemma presence_is_truthiness_witness :
  respond (create_order test_engine test_config (test_world accepting)
             (order_with_cart (Arr [example_book; nameless_book])))
  = Ok {| status := 400;
          body := Obj [("success", Boolean false);
                       ("error", Str "Invalid cart item data")] |}.
Proof.
  edestruct (presence_is_truthiness test_engine test_config (test_world accepting)
               (order_with_cart (Arr [example_book; nameless_book])))
    as (_ & _ & _ & H); [reflexivity|].
  apply H; [reflexivity | reflexivity | reflexivity |].
  exists nameless_book. split; [right; left; reflexivity | right; reflexivity].
Defined.

(** The example submission: one book, two copies. *)
Lemma payload_mapping_witness :
  exists p,
    map_payload test_engine (test_world accepting) example_submission = Ok p
    /\ Payload.weight p = Num (0.5 * sum_quantities [2%float]).
Proof.
  destruct (payload_mapping test_engine (test_world accepting) example_submission)
    as (Hvalid & Hprops).
  destruct (Hvalid eq_refl) as (_ & _ & Hex).
  destruct (Hex eq_refl) as (p & Hp).
  exists p. split; [exact Hp|].
  destruct (Hprops p Hp) as (_ & _ & _ & _ & _ & Hw & _).
  apply Hw. reflexivity.
Defined.

(** Same date, same environment, another provider: the same payload. *)
Lemma mapping_deterministic_witness :
  map_payload test_engine (test_world accepting) example_submission
  = map_payload test_engine (test_world unauthorized) example_submission.
Proof.
  apply (mapping_deterministic test_engine (test_world accepting)
           (test_world unauthorized) example_submission); reflexivity.
Defined.

(** A shipping cost of -5 and the coupon discount "ten" reach the provider. *)
Lemma optional_charges_unvalidated_witness :
  exists p,
    outbound (create_order test_engine test_config (test_world accepting)
                order_with_odd_charges)
    = [create_adhoc test_config p]
    /\ Payload.shipping_charges p = Num (-5)
    /\ Payload.total_discount p = Str "ten".
Proof.
  edestruct (optional_charges_unvalidated test_engine test_config
               (test_world accepting) order_with_odd_charges)
    as (_ & _ & Hs & _ & Hc & _); [reflexivity | reflexivity | reflexivity |].
  eexists. split; [|split; [apply Hs; reflexivity | apply Hc; reflexivity]].
  reflexivity.
Defined.

(** ** Errors of the handler's own code *)

(** Everything the handler's own code throws is a plain error, without the
    [response] that only a rejected call carries. *)
Lemma get_internal (v : value) (k : string) (e : js_error) :
  get v k = Throw e -> internal e.
Proof.
  unfold get. destruct (nullish v); [|discriminate].
  intros H. injection H as <-. reflexivity.
Qed.

Lemma ToString_internal (js : engine) :
  forall (v : value) (e : js_error), ToString js v = Throw e -> internal e.
Proof.
  fix IH 1. intros [| | [|] | f | s | l | ps] e; simpl; try discriminate.
  - induction l as [|x rest IHl]; simpl; [discriminate|].
    match type of IHl with ?j = _ -> _ => destruct j as [sr|er] eqn:Hrest end.
    + destruct (nullish x); [|destruct (ToString js x) as [sx|e'] eqn:Hx]; simpl.
      * destruct rest; discriminate.
      * destruct rest; discriminate.
      * intros H. injection H as <-. apply (IH x e' Hx).
    + destruct (nullish x); [|destruct (ToString js x) as [sx|e'] eqn:Hx]; simpl.
      * destruct rest; [discriminate|]. exact IHl.
      * destruct rest; [discriminate|]. exact IHl.
      * intros H. injection H as <-. apply (IH x e' Hx).
  - destruct (has_own ps "toString"); [|discriminate].
    intros H. injection H as <-. reflexivity.
Qed.

Lemma ToPrimitive_internal (js : engine) (v : value) (e : js_error) :
  ToPrimitive js v = Throw e -> internal e.
Proof.
  assert (Hobj : forall o, bindR (ToString js o) (fun s => Ok (Str s)) = Throw e ->
                           internal e).
  { intros o. destruct (ToString js o) as [s'|e'] eqn:H; simpl; [discriminate|].
    intros H'. injection H' as <-. apply (ToString_internal js _ _ H). }
  destruct v as [| | b | f | s | l | ps]; try discriminate.
  - apply (Hobj (Arr l)).
  - apply (Hobj (Obj ps)).
Qed.

Lemma js_add_internal (js : engine) (a b : value) (e : js_error) :
  js_add js a b = Throw e -> internal e.
Proof.
  unfold js_add.
  destruct (ToPrimitive js a) as [pa|ea] eqn:Ha; simpl;
    [|intros H; injection H as <-; apply (ToPrimitive_internal js _ _ Ha)].
  destruct (ToPrimitive js b) as [pb|eb] eqn:Hb; simpl;
    [|intros H; injection H as <-; apply (ToPrimitive_internal js _ _ Hb)].
  destruct (is_Str pa || is_Str pb); [|discriminate].
  destruct (ToString js pa) as [sa|ea] eqn:Hsa; simpl;
    [|intros H; injection H as <-; apply (ToString_internal js _ _ Hsa)].
  destruct (ToString js pb) as [sb|eb] eqn:Hsb; simpl; [discriminate|].
  intros H; injection H as <-; apply (ToString_internal js _ _ Hsb).
Qed.

Lemma js_mul_internal (js : engine) (a b : value) (e : js_error) :
  js_mul js a b = Throw e -> internal e.
Proof.
  unfold js_mul, ToNumber.
  destruct (ToPrimitive js a) as [pa|ea] eqn:Ha; simpl;
    [|intros H; injection H as <-; apply (ToPrimitive_internal js _ _ Ha)].
  destruct (ToPrimitive js b) as [pb|eb] eqn:Hb; simpl; [discriminate|].
  intros H; injection H as <-; apply (ToPrimitive_internal js _ _ Hb).
Qed.

Lemma destructure_internal (req_body : value) (e : js_error) :
  destructure req_body = Throw e -> internal e.
Proof.
  unfold destructure. destruct (nullish req_body); [|discriminate].
  intros H. injection H as <-. reflexivity.
Qed.

Lemma invalid_item_internal (js : engine) (x : value) (e : js_error) :
  invalid_item js x = Throw e -> internal e.
Proof.
  destruct (nullish x) eqn:Hn.
  - rewrite (invalid_item_null js x Hn). intros H. injection H as <-. reflexivity.
  - rewrite (invalid_item_spec js x Hn). discriminate.
Qed.

Lemma Array_find_internal (js : engine) (l : list value) (e : js_error) :
  Array_find (invalid_item js) l = Throw e -> internal e.
Proof.
  induction l as [|x l IH]; simpl; [discriminate|].
  destruct (invalid_item js x) as [[|]|e'] eqn:Hx; simpl.
  - discriminate.
  - exact IH.
  - intros H. injection H as <-. apply (invalid_item_internal js x e' Hx).
Qed.

Lemma order_item_internal (js : engine) (x : value) (e : js_error) :
  order_item js x = Throw e -> internal e.
Proof.
  unfold order_item, get. destruct (nullish x); simpl.
  - intros H. injection H as <-. reflexivity.
  - destruct (ToString js (prop x "id")) as [s|e'] eqn:Hs; simpl; [discriminate|].
    intros H. injection H as <-. apply (ToString_internal js _ _ Hs).
Qed.

Lemma Array_map_internal (js : engine) (l : list value) (e : js_error) :
  Array_map (order_item js) l = Throw e -> internal e.
Proof.
  induction l as [|x l IH]; simpl; [discriminate|].
  destruct (order_item js x) as [y|e'] eqn:Hx; simpl.
  - destruct (Array_map (order_item js) l) as [ys|e'']; simpl; [discriminate|].
    intros H. injection H as <-. apply IH. reflexivity.
  - intros H. injection H as <-. apply (order_item_internal js x e' Hx).
Qed.

Lemma Array_reduce_internal (js : engine) (l : list value) :
  forall (acc : value) (e : js_error),
    Array_reduce (add_quantity js) l acc = Throw e -> internal e.
Proof.
  induction l as [|x l IH]; simpl; intros acc e; [discriminate|].
  destruct (add_quantity js acc x) as [acc'|e'] eqn:Hx; simpl.
  - apply IH.
  - intros H. injection H as <-. unfold add_quantity in Hx.
    destruct (get x "quantity") as [q|eq] eqn:Hq; simpl in Hx.
    + apply (js_add_internal js _ _ _ Hx).
    + injection Hx as <-. apply (get_internal _ _ _ Hq).
Qed.

Lemma map_payload_internal (js : engine) (w : world) (sub : submission)
  (e : js_error) :
  map_payload js w sub = Throw e -> internal e.
Proof.
  unfold map_payload, payload.
  destruct (Array_map _ _) as [items|e1] eqn:H1; simpl;
    [|intros H; injection H as <-; apply (Array_map_internal js _ _ H1)].
  destruct (Array_reduce _ _ _) as [total|e2] eqn:H2; simpl;
    [|intros H; injection H as <-; apply (Array_reduce_internal js _ _ _ H2)].
  destruct (js_mul js (Num 0.5) total) as [wt|e3] eqn:H3; simpl; [discriminate|].
  intros H; injection H as <-; apply (js_mul_internal js _ _ _ H3).
Qed.

(** ** The runs of the handler *)

(** The four ways the validator ends: a 400 with one error entry, a throw
    of the cart scan with nothing logged, or a pass, silent or with the
    warning about a zero total. *)
Lemma validate_run (js : engine) (sub : submission) :
  (exists r msg md,
     validate js sub no_effects
     = (Ok (Some r), {| log := [mk_log error msg md]; calls := [] |})
     /\ status r = 400%Z)
  \/ (exists e, validate js sub no_effects = (Throw e, no_effects) /\ internal e)
  \/ validate js sub no_effects = (Ok None, no_effects)
  \/ (exists md,
        validate js sub no_effects
        = (Ok None,
           {| log := [mk_log warn "Total amount is zero, proceeding with warning" md];
              calls := [] |})).
Proof.
  unfold validate, bind, lift, logger, res_json, ret.
  destruct (missing_required sub);
    [left; do 3 eexists; split; reflexivity|].
  destruct (incomplete_form (formData sub));
    [left; do 3 eexists; split; reflexivity|].
  destruct (Array_find (invalid_item js) (elements (cart sub))) as [it|e] eqn:Hf.
  - destruct (truthy it); [left; do 3 eexists; split; reflexivity|].
    rewrite invalid_total_spec.
    destruct (_ || _); [left; do 3 eexists; split; reflexivity|].
    destruct (strict_eq_num (totalAmount sub) 0); simpl.
    + right; right; right. eexists. reflexivity.
    + right; right; left. reflexivity.
  - right; left. exists e. split; [reflexivity|].
    apply (Array_find_internal js _ _ Hf).
Qed.

(** The catch block logs the error and answers; only an error that carries
    a response can give a 401 or a 422. *)
Lemma catch_block_run (e : js_error) (eff : effects) :
  exists r md,
    catch_block e eff
    = (Ok r, {| log := (log eff ++ [mk_log error "Error creating Shiprocket order" md])%list;
                calls := calls eff |})
    /\ (status r = 401%Z \/ status r = 422%Z \/ status r = 500%Z)
    /\ (internal e -> r = failed_to_create (err_message e)).
Proof.
  unfold catch_block, bind, logger, res_json, ret, internal.
  destruct (err_response e) as [[st d]|]; simpl.
  - destruct (Z.eqb st 401); [|destruct (Z.eqb st 422)];
      (eexists; eexists; split; [reflexivity|]; simpl;
       split; [auto | discriminate]).
  - eexists; eexists; split; [reflexivity|]. simpl. auto.
Qed.

(** The forwarding of a mapped submission: two entries, the call, and then
    what the provider said. *)
Lemma forward_mapped (js : engine) (cfg : config) (w : world)
  (sub : submission) (p : Payload.t) (eff : effects) :
  map_payload js w sub = Ok p ->
  forward js cfg w sub eff
  = let sent := {| log := (log eff ++ forwarding_log sub p)%list;
                   calls := (calls eff ++ [create_adhoc cfg p])%list |} in
    match provider w (create_adhoc cfg p) with
    | Rejected e => (Throw e, sent)
    | Resolved r =>
        match get (resp_data r) "order_id" with
        | Throw e => (Throw e, sent)
        | Ok id =>
            (Ok {| status := 200;
                   body := Obj [("success", Boolean true);
                                ("shiprocketOrderId", id);
                                ("message",
                                 Str "Order created successfully in Shiprocket")] |},
             {| log := (log sent
                        ++ [mk_log info "Shiprocket order created successfully"
                              [("orderId", MVal (orderId sub));
                               ("shiprocketOrderId", MVal id)]])%list;
                calls := calls sent |})
        end
    end.
Proof.
  intros Hp. assert (Hp' := Hp). payload_inv Hp'.
  unfold map_payload in Hp. rewrite Hitems in Hp. simpl in Hp.
  unfold forward, bind, lift, logger, axios_post, res_json, ret.
  rewrite Hitems, Hp. simpl. unfold forwarding_log. simpl.
  rewrite <- app_assoc. simpl.
  destruct (provider w _) as [r|e]; [|reflexivity].
  destruct (get (resp_data r) "order_id"); reflexivity.
Qed.

(** A submission that cannot be mapped never reaches the provider. *)
Lemma forward_unmapped (js : engine) (cfg : config) (w : world)
  (sub : submission) (e : js_error) (eff : effects) :
  map_payload js w sub = Throw e ->
  exists eff', forward js cfg w sub eff = (Throw e, eff')
               /\ calls eff' = calls eff.
Proof.
  unfold map_payload, forward, bind, lift, logger.
  destruct (Array_map (order_item js) (elements (cart sub))) as [items|e'];
    simpl.
  - intros ->. eexists. split; reflexivity.
  - intros H. injection H as <-. eexists. split; reflexivity.
Qed.

(** Every run of the handler is of one of three kinds: an error of its own
    code before anything was sent, a rejection by the validator, or a
    forwarding of the mapped payload. *)
Lemma create_order_cases (js : engine) (cfg : config) (w : world)
  (req_body : value) :
  (exists e eff,
     internal e /\ calls eff = []
     /\ create_order js cfg w req_body no_effects = catch_block e eff)
  \/ (exists sub r msg md,
        destructure req_body = Ok sub
        /\ status r = 400%Z
        /\ create_order js cfg w req_body no_effects
           = (Ok r, {| log := [mk_log error msg md]; calls := [] |}))
  \/ (exists sub p,
        destructure req_body = Ok sub
        /\ passes js sub
        /\ map_payload js w sub = Ok p
        /\ calls (snd (validate js sub no_effects)) = []
        /\ Forall (fun l => level l <> error) (log (snd (validate js sub no_effects)))
        /\ create_order js cfg w req_body no_effects
           = try_catch (forward js cfg w sub) catch_block
               (snd (validate js sub no_effects))).
Proof.
  destruct (destructure req_body) as [sub|e] eqn:Hd.
  - destruct (validate_run js sub)
      as [(r & msg & md & Hv & Hs) | [(e & Hv & He) | Hpass]].
    + right; left. exists sub, r, msg, md.
      split; [reflexivity|]. split; [exact Hs|].
      unfold create_order, try_catch, try_block, bind, lift.
      rewrite Hd, Hv. reflexivity.
    + left. exists e, no_effects. split; [exact He|]. split; [reflexivity|].
      unfold create_order, try_catch, try_block, bind, lift.
      rewrite Hd, Hv. reflexivity.
    + assert (Hp : passes js sub /\ calls (snd (validate js sub no_effects)) = []
                   /\ Forall (fun l => level l <> error)
                        (log (snd (validate js sub no_effects)))).
      { unfold passes. destruct Hpass as [-> | (md & ->)]; simpl.
        - auto.
        - split; [reflexivity|]. split; [reflexivity|].
          constructor; [discriminate | constructor]. }
      destruct Hp as (Hp & Hc & Hl).
      pose proof (create_order_passes js cfg w req_body sub Hd Hp) as Hrun.
      destruct (map_payload js w sub) as [p|e] eqn:Hm.
      * right; right. exists sub, p. auto 10.
      * left.
        destruct (forward_unmapped js cfg w sub e
                    (snd (validate js sub no_effects)) Hm) as (eff' & Hf & Hc').
        exists e, eff'. split; [apply (map_payload_internal js w sub e Hm)|].
        split; [congruence|].
        rewrite Hrun. unfold try_catch. rewrite Hf. reflexivity.
  - left. exists e, no_effects. split; [apply (destructure_internal _ _ Hd)|].
    split; [reflexivity|].
    unfold create_order, try_catch, try_block, bind, lift. rewrite Hd. reflexivity.
Qed.

(** Once the payload is mapped the run ends in one of two ways: the 200
    after the provider's answer, or the catch block after a rejection or an
    answer without a body. The request has left in both. *)
Lemma sent_run (js : engine) (cfg : config) (w : world)
  (sub : submission) (p : Payload.t) (eff : effects) :
  map_payload js w sub = Ok p ->
  (exists r id,
     provider w (create_adhoc cfg p) = Resolved r
     /\ get (resp_data r) "order_id" = Ok id
     /\ try_catch (forward js cfg w sub) catch_block eff
        = (Ok {| status := 200;
                 body := Obj [("success", Boolean true);
                              ("shiprocketOrderId", id);
                              ("message",
                               Str "Order created successfully in Shiprocket")] |},
           {| log := ((log eff ++ forwarding_log sub p)
                      ++ [mk_log info "Shiprocket order created successfully"
                            [("orderId", MVal (orderId sub));
                             ("shiprocketOrderId", MVal id)]])%list;
              calls := (calls eff ++ [create_adhoc cfg p])%list |}))
  \/ (exists e r md,
        (provider w (create_adhoc cfg p) = Rejected e
         \/ exists rs, provider w (create_adhoc cfg p) = Resolved rs
                       /\ get (resp_data rs) "order_id" = Throw e)
        /\ try_catch (forward js cfg w sub) catch_block eff
           = (Ok r,
              {| log := ((log eff ++ forwarding_log sub p)
                         ++ [mk_log error "Error creating Shiprocket order" md])%list;
                 calls := (calls eff ++ [create_adhoc cfg p])%list |})
        /\ (status r = 401%Z \/ status r = 422%Z \/ status r = 500%Z)
        /\ (internal e -> r = failed_to_create (err_message e))).
Proof.
  intros Hp. unfold try_catch. rewrite (forward_mapped js cfg w sub p eff Hp).
  cbv zeta.
  destruct (provider w (create_adhoc cfg p)) as [rs|e] eqn:Hprov.
  - destruct (get (resp_data rs) "order_id") as [id|e] eqn:Hid.
    + left. exists rs, id. auto.
    + right.
      destruct (catch_block_run e
                  {| log := (log eff ++ forwarding_log sub p)%list;
                     calls := (calls eff ++ [create_adhoc cfg p])%list |})
        as (r & md & Hrun & Hst & Hint).
      exists e, r, md. rewrite Hrun. simpl. eauto 10.
  - right.
    destruct (catch_block_run e
                {| log := (log eff ++ forwarding_log sub p)%list;
                   calls := (calls eff ++ [create_adhoc cfg p])%list |})
      as (r & md & Hrun & Hst & Hint).
    exists e, r, md. rewrite Hrun. simpl. auto.
Qed.

(** What it takes to get past the validator. *)
Lemma passes_iff (js : engine) (sub : submission) :
  passes js sub
  <-> missing_required sub = false
      /\ incomplete_form (formData sub) = false
      /\ (exists it, Array_find (invalid_item js) (elements (cart sub)) = Ok it
                     /\ truthy it = false)
      /\ invalid_total js (totalAmount sub) = Ok false.
Proof.
  unfold passes, validate, bind, lift, logger, res_json, ret. split.
  - destruct (missing_required sub); [discriminate|].
    destruct (incomplete_form (formData sub)); [discriminate|].
    destruct (Array_find (invalid_item js) (elements (cart sub))) as [it|e];
      [|discriminate].
    destruct (truthy it) eqn:Ht; [discriminate|].
    rewrite invalid_total_spec. destruct (_ || _); [discriminate|].
    intros _. eauto 10.
  - intros (-> & -> & (it & -> & ->) & ->).
    destruct (strict_eq_num (totalAmount sub) 0); reflexivity.
Qed.

Lemma find_on_truthy_cases (js : engine) (l : list value) :
  forallb truthy l = true ->
  (forallb (valid_item js) l = true
   /\ Array_find (invalid_item js) l = Ok Undefined)
  \/ (exists it, Array_find (invalid_item js) l = Ok it /\ truthy it = true).
Proof.
  induction l as [|x l IH]; simpl; intros Ht; [left; auto|].
  apply andb_true_iff in Ht as [Htx Htl].
  unfold valid_item at 1.
  rewrite (invalid_item_spec js x (truthy_not_nullish x Htx)).
  destruct (_ || _); simpl.
  - right. exists x. auto.
  - apply (IH Htl).
Qed.

Lemma Array_find_throws (f : value -> result bool) (pre post : list value)
  (x : value) (e : js_error) :
  Forall (fun y => f y = Ok false) pre ->
  f x = Throw e ->
  Array_find f (pre ++ x :: post) = Throw e.
Proof.
  induction 1 as [|y pre Hy _ IH]; intros Hx; simpl.
  - rewrite Hx. reflexivity.
  - rewrite Hy. simpl. apply IH, Hx.
Qed.

Lemma before_T_prefix (d rest : string) :
  contains_T d = false -> before_T (d ++ String "T" rest) = d.
Proof.
  induction d as [|c d IH]; simpl; [reflexivity|].
  destruct (Ascii.eqb c "T"); simpl; [discriminate|].
  intros H. rewrite (IH H). reflexivity.
Qed.

Lemma before_T_free (s : string) : contains_T (before_T s) = false.
Proof.
  induction s as [|c s IH]; simpl; [reflexivity|].
  destruct (Ascii.eqb c "T") eqn:Hc; simpl; [reflexivity|].
  rewrite Hc. exact IH.
Qed.

Lemma env_or_nonempty (x : option string) (fallback : string) :
  fallback <> "" -> env_or x fallback <> "".
Proof.
  intros Hf. unfold env_or. destruct x as [s|]; [|exact Hf].
  destruct (String.eqb s "") eqn:Hs; [exact Hf|].
  apply String.eqb_neq, Hs.
Qed.

(** ** Further properties of the order handler *)

(** X1. Whatever the body, the clock, the environment and the provider, the
    handler answers: no exception leaves it, and the status is one of 200,
    400, 401, 422 and 500. *)
Theorem create_order_always_answers (js : engine) (cfg : config) (w : world)
  (req_body : value) :
  exists r,
    respond (create_order js cfg w req_body) = Ok r
    /\ In (status r) [200; 400; 401; 422; 500]%Z.
Proof.
  unfold respond.
  destruct (create_order_cases js cfg w req_body)
    as [(e & eff & He & _ & ->) | [(sub & r & msg & md & _ & Hs & ->)
       | (sub & p & _ & _ & Hp & _ & _ & ->)]].
  - destruct (catch_block_run e eff) as (r & md & -> & _ & Hr).
    exists r. split; [reflexivity|]. rewrite (Hr He). simpl. auto 10.
  - exists r. split; [reflexivity|]. rewrite Hs. simpl. auto.
  - destruct (sent_run js cfg w sub p (snd (validate js sub no_effects)) Hp)
      as [(rs & id & _ & _ & ->) | (e & r & md & _ & -> & Hst & _)].
    + eexists. split; [reflexivity|]. simpl. auto.
    + exists r. split; [reflexivity|].
      destruct Hst as [-> | [-> | ->]]; simpl; auto 10.
Qed.

(** X2. One request leads to at most one call of the provider, and what is
    sent is the mapped payload of a submission that passed the validator,
    posted to the adhoc order endpoint with the bearer token and a timeout
    of 10000 ms. *)
Theorem only_the_mapped_payload_is_sent (js : engine) (cfg : config) (w : world)
  (req_body : value) :
  outbound (create_order js cfg w req_body) = []
  \/ exists sub p,
       destructure req_body = Ok sub
       /\ passes js sub
       /\ map_payload js w sub = Ok p
       /\ outbound (create_order js cfg w req_body)
          = [{| url := apiUrl cfg ++ "/v1/external/orders/create/adhoc";
                data := p;
                headers := [("Content-Type", "application/json");
                            ("Authorization", "Bearer " ++ token cfg)];
                timeout := 10000 |}].
Proof.
  unfold outbound.
  destruct (create_order_cases js cfg w req_body)
    as [(e & eff & _ & Hc & ->) | [(sub & r & msg & md & _ & _ & ->)
       | (sub & p & Hd & Hpass & Hp & Hc & _ & ->)]].
  - left. destruct (catch_block_run e eff) as (r & md & -> & _). exact Hc.
  - left. reflexivity.
  - right. exists sub, p. repeat (split; [assumption|]).
    destruct (sent_run js cfg w sub p (snd (validate js sub no_effects)) Hp)
      as [(rs & id & _ & _ & ->) | (e & r & md & _ & -> & _)];
      simpl; rewrite Hc; reflexivity.
Qed.

(** X3. A 400 means that nothing was sent, and a 200, a 401 or a 422 means
    that exactly one request was. *)
Theorem status_tells_whether_sent (js : engine) (cfg : config) (w : world)
  (req_body : value) (r : http_response) :
  respond (create_order js cfg w req_body) = Ok r ->
  (status r = 400%Z -> outbound (create_order js cfg w req_body) = [])
  /\ (status r = 200%Z \/ status r = 401%Z \/ status r = 422%Z ->
      exists rq, outbound (create_order js cfg w req_body) = [rq]).
Proof.
  unfold respond, outbound.
  destruct (create_order_cases js cfg w req_body)
    as [(e & eff & He & Hc & ->) | [(sub & r' & msg & md & _ & Hs & ->)
       | (sub & p & _ & _ & Hp & Hc & _ & ->)]].
  - destruct (catch_block_run e eff) as (r' & md & -> & _ & Hr). simpl.
    intros H. injection H as <-. rewrite (Hr He). simpl.
    split; [intros _; exact Hc|].
    intros [H | [H | H]]; discriminate H.
  - simpl. intros H. injection H as <-. split; [reflexivity|].
    rewrite Hs. intros [H | [H | H]]; discriminate H.
  - destruct (sent_run js cfg w sub p (snd (validate js sub no_effects)) Hp)
      as [(rs & id & _ & _ & ->) | (e & r' & md & _ & -> & Hst & _)]; simpl;
      intros H; injection H as <-; rewrite Hc; simpl.
    + split; [discriminate | eauto].
    + split; [|eauto].
      intros H400. destruct Hst as [H | [H | H]]; rewrite H in H400;
        discriminate H400.
Qed.

(** X4. Every response other than the 200 was preceded by an entry of level
    error, the last of the log; the log of a 200 has no such entry. *)
Theorem failures_are_logged (js : engine) (cfg : config) (w : world)
  (req_body : value) (r : http_response) :
  respond (create_order js cfg w req_body) = Ok r ->
  (status r = 200%Z ->
   Forall (fun l => level l <> error) (logged (create_order js cfg w req_body)))
  /\ (status r <> 200%Z ->
      exists before msg md,
        logged (create_order js cfg w req_body)
        = (before ++ [mk_log error msg md])%list).
Proof.
  unfold respond, logged.
  destruct (create_order_cases js cfg w req_body)
    as [(e & eff & He & Hc & ->) | [(sub & r' & msg & md & _ & Hs & ->)
       | (sub & p & _ & _ & Hp & _ & Hl & ->)]].
  - destruct (catch_block_run e eff) as (r' & md & -> & _ & Hr). simpl.
    intros H. injection H as <-. rewrite (Hr He). simpl.
    split; [discriminate | eauto].
  - simpl. intros H. injection H as <-. rewrite Hs.
    split; [discriminate|]. intros _. exists [], msg, md. reflexivity.
  - destruct (sent_run js cfg w sub p (snd (validate js sub no_effects)) Hp)
      as [(rs & id & _ & _ & ->) | (e & r' & md & _ & -> & Hst & _)]; simpl;
      intros H; injection H as <-; simpl.
    + split; [|intros H; contradiction H; reflexivity].
      intros _. apply Forall_app. split.
      * apply Forall_app. split; [exact Hl|].
        unfold forwarding_log. repeat constructor; discriminate.
      * repeat constructor; discriminate.
    + split; [|eauto].
      intros H200. destruct Hst as [H | [H | H]]; rewrite H in H200;
        discriminate H200.
Qed.

(** X5. A request without a body ([req.body] undefined or null) is answered
    by the catch block: a 500 whose details are the message of the failed
    destructuring, and nothing is sent. *)
Theorem no_body_is_a_500 (js : engine) (cfg : config) (w : world)
  (req_body : value) :
  nullish req_body = true ->
  respond (create_order js cfg w req_body)
  = Ok {| status := 500;
          body := Obj [("success", Boolean false);
                       ("error", Str "Failed to create order in Shiprocket");
                       ("details",
                        Str ("Cannot destructure property 'orderId' of 'req.body' as it is "
                             ++ describe req_body ++ "."))] |}
  /\ outbound (create_order js cfg w req_body) = [].
Proof.
  destruct req_body; try discriminate; intros _; split; reflexivity.
Qed.

(** X6. When the provider accepts the order but answers without a body (its
    data is null or undefined), the handler reports a failure, a 500 with
    the message of the failed read of [order_id], although the order was
    sent. *)
Theorem accepted_without_body_is_a_500 (js : engine) (cfg : config) (w : world)
  (req_body : value) (sub : submission) (p : Payload.t) (rs : axios_response) :
  destructure req_body = Ok sub ->
  passes js sub ->
  map_payload js w sub = Ok p ->
  provider w (create_adhoc cfg p) = Resolved rs ->
  nullish (resp_data rs) = true ->
  respond (create_order js cfg w req_body)
  = Ok {| status := 500;
          body := Obj [("success", Boolean false);
                       ("error", Str "Failed to create order in Shiprocket");
                       ("details",
                        Str ("Cannot read properties of " ++ describe (resp_data rs)
                             ++ " (reading 'order_id')"))] |}
  /\ outbound (create_order js cfg w req_body) = [create_adhoc cfg p].
Proof.
  intros Hd Hpass Hp Hprov Hn.
  unfold respond, outbound.
  rewrite (create_order_passes js cfg w req_body sub Hd Hpass).
  unfold try_catch.
  rewrite (forward_mapped js cfg w sub p _ Hp). cbv zeta.
  rewrite Hprov. unfold get. rewrite Hn.
  rewrite (validate_calls js sub no_effects). split; reflexivity.
Qed.

(** X7. On the way to a 200 the log receives, after at most the warning
    about a zero total, exactly three entries of level info, and the payload
    recorded in the second is the payload that was sent. *)
Theorem success_log (js : engine) (cfg : config) (w : world)
  (req_body : value) (sub : submission) (p : Payload.t) (rs : axios_response) :
  destructure req_body = Ok sub ->
  passes js sub ->
  map_payload js w sub = Ok p ->
  provider w (create_adhoc cfg p) = Resolved rs ->
  nullish (resp_data rs) = false ->
  logged (create_order js cfg w req_body)
  = ((if strict_eq_num (totalAmount sub) 0
      then [mk_log warn "Total amount is zero, proceeding with warning"
              [("orderId", MVal (orderId sub));
               ("totalAmount", MVal (totalAmount sub))]]
      else [])
     ++ [mk_log info "Cart details"
           [("cart", MVal (cart sub));
            ("orderItems", MItems (Payload.order_items p))];
         mk_log info "Sending order to Shiprocket"
           [("orderId", MVal (orderId sub));
            ("totalAmount", MVal (totalAmount sub));
            ("itemCount", MCount (List.length (elements (cart sub))));
            ("payload", MPayload p)];
         mk_log info "Shiprocket order created successfully"
           [("orderId", MVal (orderId sub));
            ("shiprocketOrderId", MVal (prop (resp_data rs) "order_id"))]])%list
  /\ map data (outbound (create_order js cfg w req_body)) = [p].
Proof.
  intros Hd Hpass Hp Hprov Hn.
  unfold logged, outbound.
  rewrite (create_order_passes js cfg w req_body sub Hd Hpass).
  unfold try_catch.
  rewrite (forward_mapped js cfg w sub p _ Hp). cbv zeta.
  rewrite Hprov. unfold get. rewrite Hn. simpl.
  rewrite (validate_calls js sub no_effects).
  split; [|reflexivity].
  apply passes_iff in Hpass as (Hm & Hi & (it & Hf & Ht) & Hb).
  unfold validate, bind, lift, logger, res_json, ret.
  rewrite Hm, Hi, Hf, Ht, Hb.
  destruct (strict_eq_num (totalAmount sub) 0); reflexivity.
Qed.

(** X8. A null element in the cart, met by the scan before any offending
    item, makes the callback of [cart.find] throw: the answer is the 500 of
    the catch block with the message of the failed read of [id], not a 400,
    and nothing is sent. *)
Theorem null_cart_element_is_a_500 (js : engine) (cfg : config) (w : world)
  (req_body : value) (sub : submission) (pre post : list value) (x : value) :
  destructure req_body = Ok sub ->
  missing_required sub = false ->
  incomplete_form (formData sub) = false ->
  elements (cart sub) = (pre ++ x :: post)%list ->
  forallb (valid_item js) pre = true ->
  nullish x = true ->
  respond (create_order js cfg w req_body)
  = Ok {| status := 500;
          body := Obj [("success", Boolean false);
                       ("error", Str "Failed to create order in Shiprocket");
                       ("details",
                        Str ("Cannot read properties of " ++ describe x
                             ++ " (reading 'id')"))] |}
  /\ outbound (create_order js cfg w req_body) = [].
Proof.
  intros Hd Hm Hi Hcart Hpre Hx.
  assert (Hf : Array_find (invalid_item js) (elements (cart sub))
               = Throw (TypeError ("Cannot read properties of " ++ describe x
                                   ++ " (reading 'id')"))).
  { rewrite Hcart. apply Array_find_throws.
    - rewrite forallb_forall in Hpre. apply Forall_forall.
      intros y Hy. apply valid_item_invalid, Hpre, Hy.
    - apply invalid_item_null, Hx. }
  unfold respond, outbound, create_order, try_catch, try_block, bind, lift.
  rewrite Hd. unfold validate, bind, lift. rewrite Hm, Hi, Hf.
  split; reflexivity.
Qed.

(** X9. On a cart whose elements are all truthy (a cart of objects, say) the
    validator is exact: it lets a submission through if and only if the
    four required names are there, the shipping form is complete, every
    item passes the per-item test and the total is a finite number that is
    not negative. *)
Theorem validator_exact_on_truthy_carts (js : engine) (sub : submission) :
  forallb truthy (elements (cart sub)) = true ->
  passes js sub <-> valid_submission js sub = true.
Proof.
  intros Ht. split; [|apply valid_submission_passes].
  intros Hp. apply passes_iff in Hp as (Hm & Hi & (it & Hf & Hit) & Hb).
  unfold valid_submission. rewrite Hm, Hi, Hb. simpl.
  destruct (find_on_truthy_cases js _ Ht) as [(Hv & _) | (it' & Hf' & Hit')].
  - rewrite Hv. reflexivity.
  - rewrite Hf in Hf'. injection Hf' as <-. rewrite Hit in Hit'. discriminate.
Qed.

Lemma validate_ignores_deliveryDays (js : engine) (sub : submission) (d : value) :
  validate js (with_deliveryDays sub d) = validate js sub.
Proof. reflexivity. Qed.

Lemma forward_ignores_deliveryDays (js : engine) (cfg : config) (w : world)
  (sub : submission) (d : value) :
  forward js cfg w (with_deliveryDays sub d) = forward js cfg w sub.
Proof. reflexivity. Qed.

(** X10. The handler depends on the body through seven names only: two
    bodies that agree on orderId, cart, formData, totalAmount, shippingCost,
    couponDiscount and paymentId get the same response, the same log and
    the same call, whatever [deliveryDays] and any further property are. *)
Theorem only_seven_names_matter (js : engine) (cfg : config) (w : world)
  (body1 body2 : value) :
  nullish body1 = false ->
  nullish body2 = false ->
  (forall k, In k body_names -> prop body1 k = prop body2 k) ->
  forall eff, create_order js cfg w body1 eff = create_order js cfg w body2 eff.
Proof.
  intros H1 H2 Hk eff.
  assert (Hs : exists sub d1 d2,
             destructure body1 = Ok (with_deliveryDays sub d1)
             /\ destructure body2 = Ok (with_deliveryDays sub d2)).
  { exists {| orderId := prop body2 "orderId"; cart := prop body2 "cart";
              formData := prop body2 "formData";
              totalAmount := prop body2 "totalAmount";
              shippingCost := prop body2 "shippingCost";
              couponDiscount := prop body2 "couponDiscount";
              paymentId := prop body2 "paymentId";
              deliveryDays := Undefined |},
           (prop body1 "deliveryDays"), (prop body2 "deliveryDays").
    unfold destructure, with_deliveryDays. rewrite H1, H2. simpl.
    rewrite !Hk by (unfold body_names; simpl; tauto). split; reflexivity. }
  destruct Hs as (sub & d1 & d2 & Hd1 & Hd2).
  unfold create_order, try_catch, try_block, bind, lift.
  rewrite Hd1, Hd2, !validate_ignores_deliveryDays, !forward_ignores_deliveryDays.
  reflexivity.
Qed.

(** X11. [order_date] is the part of the clock's ISO timestamp before its
    first "T": it never contains a "T", and for a timestamp made of a date,
    a "T" and a time it is the date. *)
Theorem order_date_is_the_date_part (js : engine) (w : world)
  (sub : submission) (p : Payload.t) :
  map_payload js w sub = Ok p ->
  contains_T (Payload.order_date p) = false
  /\ forall date time,
       now_iso w = date ++ String "T" time ->
       contains_T date = false ->
       Payload.order_date p = date.
Proof.
  intros Hp. payload_inv Hp. simpl. unfold orderDate. split.
  - apply before_T_free.
  - intros date time -> Hd. apply (before_T_prefix date time Hd).
Qed.

(** X12. The two settings read from the environment fall back to their
    defaults when the variable is unset or empty, so neither the bearer
    token nor the pickup location sent is ever empty, and a non-empty
    variable is used as it is. *)
Theorem environment_fallbacks (js : engine) (w : world) (sub : submission)
  (p : Payload.t) (env_SHIPROCKET_TOKEN : option string) :
  map_payload js w sub = Ok p ->
  (Payload.pickup_location p <> ""
   /\ (env_SHIPROCKET_PICKUP_LOCATION w = None
       \/ env_SHIPROCKET_PICKUP_LOCATION w = Some "" ->
       Payload.pickup_location p = "Primary")
   /\ (forall s, env_SHIPROCKET_PICKUP_LOCATION w = Some s -> s <> "" ->
       Payload.pickup_location p = s))
  /\ (token (shiprocketConfig env_SHIPROCKET_TOKEN) <> ""
      /\ (env_SHIPROCKET_TOKEN = None \/ env_SHIPROCKET_TOKEN = Some "" ->
          token (shiprocketConfig env_SHIPROCKET_TOKEN)
          = "your-default-shiprocket-token-here")
      /\ (forall s, env_SHIPROCKET_TOKEN = Some s -> s <> "" ->
          token (shiprocketConfig env_SHIPROCKET_TOKEN) = s)).
Proof.
  intros Hp. payload_inv Hp. simpl. split; (split; [|split]).
  - apply env_or_nonempty. discriminate.
  - intros [-> | ->]; reflexivity.
  - intros s -> Hs. simpl. apply String.eqb_neq in Hs. rewrite Hs. reflexivity.
  - apply env_or_nonempty. discriminate.
  - intros [-> | ->]; reflexivity.
  - intros s -> Hs. simpl. apply String.eqb_neq in Hs. rewrite Hs. reflexivity.
Qed.

(** X13. The total amount is not checked against the cart: a submission
    that passes keeps passing with any other finite total that is not
    negative, and that total goes into [sub_total] as it is, next to the
    same order items and weight. *)
Theorem total_is_not_cross_checked (js : engine) (w : world)
  (sub : submission) (p : Payload.t) (t : float) :
  passes js sub ->
  map_payload js w sub = Ok p ->
  is_finite t = true ->
  (t <? 0)%float = false ->
  passes js (with_total sub (Num t))
  /\ exists p',
       map_payload js w (with_total sub (Num t)) = Ok p'
       /\ Payload.sub_total p' = Num t
       /\ Payload.order_items p' = Payload.order_items p
       /\ Payload.weight p' = Payload.weight p.
Proof.
  intros Hpass Hp Hfin Hneg. split.
  - apply passes_iff in Hpass as (Hm & Hi & Hf & _).
    apply passes_iff. simpl. repeat (split; [assumption|]).
    rewrite invalid_total_spec. simpl. rewrite Hfin, Hneg. reflexivity.
  - payload_inv Hp. unfold map_payload, payload. simpl.
    rewrite Hitems. simpl. rewrite Htotal. simpl. rewrite Hwt. simpl.
    eexists. split; [reflexivity|]. simpl. auto.
Qed.

(** ** The IP lookup *)

(** X14. The lookup of the public address never throws and never touches
    the log unless it fails: a resolved lookup is passed on as a 200 with
    the service's data as they are; any failure is a 500 with a fixed body
    that does not carry the error's message, which goes to the log only. *)
Theorem my_ip_passes_on_or_hides (axios_get : string -> axios_result)
  (eff : effects) :
  calls (snd (my_ip axios_get eff)) = calls eff
  /\ ((exists r,
         axios_get "https://api64.ipify.org?format=json" = Resolved r
         /\ my_ip axios_get eff = (Ok {| status := 200; body := resp_data r |}, eff))
      \/ (exists e,
            axios_get "https://api64.ipify.org?format=json" = Rejected e
            /\ my_ip axios_get eff
               = (Ok {| status := 500;
                        body := Obj [("error", Str "Failed to fetch public IP")] |},
                  {| log := (log eff
                             ++ [mk_log error "Failed to fetch public IP address"
                                   [("error", MVal (Str (err_message e)))]])%list;
                     calls := calls eff |}))).
Proof.
  unfold my_ip, try_catch, bind, ret, logger, res_json.
  destruct (axios_get "https://api64.ipify.org?format=json") as [r|e]; simpl.
  - split; [reflexivity|]. left. exists r. auto.
  - split; [reflexivity|]. right. exists e. auto.
Qed.

(** ** Two more edges of the order handler *)

(** X15. The cart check rejects exactly when the first offending element is
    truthy. Behind valid items, an offending element that is truthy is
    answered with the 400 and is the item in the log; an offending element
    that is falsy (0, false, the empty string) ends the scan without a
    rejection, whatever follows it, and the request goes on to the check of
    the total. *)
Theorem cart_check_rejects_iff_truthy (js : engine) (cfg : config) (w : world)
  (req_body : value) (sub : submission) (pre post : list value) (x : value) :
  destructure req_body = Ok sub ->
  missing_required sub = false ->
  incomplete_form (formData sub) = false ->
  elements (cart sub) = (pre ++ x :: post)%list ->
  forallb (valid_item js) pre = true ->
  invalid_item js x = Ok true ->
  (truthy x = true ->
   respond (create_order js cfg w req_body)
     = Ok {| status := 400;
             body := Obj [("success", Boolean false);
                          ("error", Str "Invalid cart item data")] |}
   /\ outbound (create_order js cfg w req_body) = []
   /\ logged (create_order js cfg w req_body)
      = [mk_log error "Invalid cart item detected" [("invalidItem", MVal x)]])
  /\ (truthy x = false ->
      (invalid_total js (totalAmount sub) = Ok false -> passes js sub)
      /\ respond (create_order js cfg w req_body)
         <> Ok {| status := 400;
                  body := Obj [("success", Boolean false);
                               ("error", Str "Invalid cart item data")] |}).
Proof.
  intros Hd Hm Hi Hcart Hpre Hx.
  assert (Hf : Array_find (invalid_item js) (elements (cart sub)) = Ok x).
  { rewrite Hcart. apply Array_find_first; [|exact Hx].
    rewrite forallb_forall in Hpre. apply Forall_forall.
    intros y Hy. apply valid_item_invalid, Hpre, Hy. }
  split; intros Ht.
  - apply (check3_rejects js cfg w req_body sub x Hd Hm Hi Hf Ht).
  - split.
    + intros Hb. apply passes_iff. eauto 10.
    + pose proof (invalid_total_spec js (totalAmount sub)) as Hb.
      destruct (_ || _) in Hb.
      * destruct (check4_rejects js cfg w req_body sub x Hd Hm Hi Hf Ht Hb)
          as [-> _]. discriminate.
      * intros Hr.
        assert (Hpass : passes js sub) by (apply passes_iff; eauto 10).
        apply (passed_never_400 js cfg w req_body sub _ Hd Hpass Hr).
        reflexivity.
Qed.

(** X16. Of the provider's answer to an accepted order the handler uses
    [data.order_id] and nothing else: whatever the status and the rest of
    the data, the response is the 200 with that id, and when the data have
    no such property (an object without it, a string, a number) the
    response still says success, with an undefined id. *)
Theorem success_uses_order_id_only (js : engine) (cfg : config) (w : world)
  (req_body : value) (sub : submission) (p : Payload.t) (rs : axios_response) :
  destructure req_body = Ok sub ->
  passes js sub ->
  map_payload js w sub = Ok p ->
  provider w (create_adhoc cfg p) = Resolved rs ->
  nullish (resp_data rs) = false ->
  respond (create_order js cfg w req_body)
  = Ok {| status := 200;
          body := Obj [("success", Boolean true);
                       ("shiprocketOrderId", prop (resp_data rs) "order_id");
                       ("message", Str "Order created successfully in Shiprocket")] |}
  /\ ((forall props, resp_data rs = Obj props -> has_own props "order_id" = false) ->
      respond (create_order js cfg w req_body)
      = Ok {| status := 200;
              body := Obj [("success", Boolean true);
                           ("shiprocketOrderId", Undefined);
                           ("message",
                            Str "Order created successfully in Shiprocket")] |}).
Proof.
  intros Hd Hpass Hp Hprov Hn.
  destruct (passed_and_mapped js cfg w req_body sub p Hd Hpass Hp) as (_ & Hr & _).
  specialize (Hr rs Hprov Hn). split; [exact Hr|].
  intros Hno. rewrite Hr. do 4 f_equal.
  destruct (resp_data rs) as [| | b | f | s | l | props]; try reflexivity.
  specialize (Hno props eq_refl). unfold has_own in Hno. simpl.
  destruct (own props "order_id"); [discriminate | reflexivity].
Qed.

(** ** Concrete runs of the further properties *)

(** The order whose only item is invalid got a 400, and nothing was sent. *)
Lemma status_tells_whether_sent_witness :
  outbound (create_order test_engine test_config (test_world accepting)
              (order_with_cart (Arr [nameless_book])))
  = [].
Proof.
  edestruct (status_tells_whether_sent test_engine test_config
               (test_world accepting) (order_with_cart (Arr [nameless_book])))
    as (H400 & _); [reflexivity|].
  apply H400. reflexivity.
Defined.

(** The rejected token leaves an error entry at the end of the log. *)
Lemma failures_are_logged_witness :
  exists before msg md,
    logged (create_order test_engine test_config (test_world unauthorized)
              example_body)
    = (before ++ [mk_log error msg md])%list.
Proof.
  edestruct (failures_are_logged test_engine test_config
               (test_world unauthorized) example_body)
    as (_ & H); [reflexivity|].
  apply H. discriminate.
Defined.

(** No body at all. *)
Lemma no_body_is_a_500_witness :
  outbound (create_order test_engine test_config (test_world accepting) Undefined)
  = [].
Proof.
  apply (no_body_is_a_500 test_engine test_config (test_world accepting) Undefined).
  reflexivity.
Defined.

(** The example order against a provider that answers with a null body. *)
Lemma accepted_without_body_is_a_500_witness :
  respond (create_order test_engine test_config (test_world answering_null)
             example_body)
  = Ok (failed_to_create "Cannot read properties of null (reading 'order_id')")
  /\ List.length (outbound (create_order test_engine test_config
                              (test_world answering_null) example_body)) = 1.
Proof.
  edestruct (accepted_without_body_is_a_500 test_engine test_config
               (test_world answering_null) example_body)
    as (Hr & Ho);
    [reflexivity | reflexivity | reflexivity | reflexivity | reflexivity |].
  split; [exact Hr | rewrite Ho; reflexivity].
Defined.

(** The order with a total of 0: the warning and three entries of level
    info. *)
Lemma success_log_witness :
  map level (logged (create_order test_engine test_config (test_world accepting)
                       zero_total_order))
  = [warn; info; info; info].
Proof.
  edestruct (success_log test_engine test_config (test_world accepting)
               zero_total_order) as (Hl & _);
    [reflexivity | reflexivity | reflexivity | reflexivity | reflexivity |].
  rewrite Hl. reflexivity.
Defined.

(** A null behind the example book. *)
Lemma null_cart_element_is_a_500_witness :
  respond (create_order test_engine test_config (test_world accepting)
             (order_with_cart (Arr [example_book; Null])))
  = Ok (failed_to_create "Cannot read properties of null (reading 'id')").
Proof.
  edestruct (null_cart_element_is_a_500 test_engine test_config
               (test_world accepting)
               (order_with_cart (Arr [example_book; Null]))
               (sample_submission (Arr [example_book; Null]) (Num 200))
               [example_book] [] Null) as (Hr & _);
    [reflexivity | reflexivity | reflexivity | reflexivity | reflexivity
     | reflexivity |].
  exact Hr.
Defined.

(** The example submission is valid, so it passes. *)
Lemma validator_exact_on_truthy_carts_witness :
  passes test_engine example_submission.
Proof.
  apply (validator_exact_on_truthy_carts test_engine example_submission);
    reflexivity.
Defined.

(** Delivery days and a note change nothing. *)
Lemma only_seven_names_matter_witness :
  create_order test_engine test_config (test_world accepting)
    order_with_delivery no_effects
  = create_order test_engine test_config (test_world accepting)
      example_body no_effects.
Proof.
  apply (only_seven_names_matter test_engine test_config (test_world accepting)
           order_with_delivery example_body); [reflexivity | reflexivity |].
  intros k [<- | [<- | [<- | [<- | [<- | [<- | [<- | []]]]]]]]; reflexivity.
Defined.

(** At half past nine on the 14th of July. *)
Lemma order_date_is_the_date_part_witness :
  exists p,
    map_payload test_engine (test_world accepting) example_submission = Ok p
    /\ Payload.order_date p = "2025-07-14".
Proof.
  eexists. split; [reflexivity|].
  edestruct (order_date_is_the_date_part test_engine (test_world accepting)
               example_submission) as (_ & H); [reflexivity|].
  apply (H "2025-07-14" "09:30:00.000Z"); reflexivity.
Defined.

(** Nothing is set in the test environment. *)
Lemma environment_fallbacks_witness :
  exists p,
    map_payload test_engine (test_world accepting) example_submission = Ok p
    /\ Payload.pickup_location p = "Primary".
Proof.
  eexists. split; [reflexivity|].
  edestruct (fun p => environment_fallbacks test_engine (test_world accepting)
                         example_submission p None)
    as ((_ & H & _) & _); [reflexivity|].
  apply H. left. reflexivity.
Defined.

(** Two copies at 100 each, and a total of 1. *)
Lemma total_is_not_cross_checked_witness :
  passes test_engine (with_total example_submission (Num 1)).
Proof.
  edestruct (fun p => total_is_not_cross_checked test_engine
                         (test_world accepting) example_submission p 1%float)
    as (H & _);
    [reflexivity | reflexivity | reflexivity | reflexivity |].
  exact H.
Defined.

(** A false in front of an item without a name: the order is sent. *)
Lemma cart_check_rejects_iff_truthy_witness :
  passes test_engine
    (sample_submission (Arr [Boolean false; nameless_book]) (Num 200)).
Proof.
  edestruct (cart_check_rejects_iff_truthy test_engine test_config
               (test_world accepting)
               (order_with_cart (Arr [Boolean false; nameless_book]))
               (sample_submission (Arr [Boolean false; nameless_book]) (Num 200))
               [] [nameless_book] (Boolean false)) as (_ & H);
    [reflexivity | reflexivity | reflexivity | reflexivity | reflexivity
     | reflexivity |].
  apply H; reflexivity.
Defined.

(** The accepting provider names the order 77. *)
Lemma success_uses_order_id_only_witness :
  respond (create_order test_engine test_config (test_world accepting)
             example_body)
  = Ok {| status := 200;
          body := Obj [("success", Boolean true);
                       ("shiprocketOrderId", Num 77);
                       ("message", Str "Order created successfully in Shiprocket")] |}.
Proof.
  edestruct (success_uses_order_id_only test_engine test_config
               (test_world accepting) example_body) as (H & _);
    [reflexivity | reflexivity | reflexivity | reflexivity | reflexivity |].
  exact H.
Defined.

(** ** The order of the checks and the presence checks, against the cart scan *)

(** C4, where the code departs from it. A body whose cart is [0] and whose
    total is -1 fails the third check (the item has no id) and the fourth,
    yet the answer carries the reason of the fourth: the scan of the cart
    found the item, and the falsy item was not taken for a finding. With
    the cart [null] the answer is no reason of any check but the 500 of the
    catch block. *)
Theorem later_check_answers_for_falsy_item (js : engine) (cfg : config)
  (w : world) :
  invalid_item js (Num 0) = Ok true
  /\ respond (create_order js cfg w (sample_order (Arr [Num 0]) (Num (-1))))
     = Ok {| status := 400;
             body := Obj [("success", Boolean false);
                          ("error",
                           Str "Total amount must be a valid non-negative number")] |}
  /\ respond (create_order js cfg w (sample_order (Arr [Null]) (Num (-1))))
     = Ok {| status := 500;
             body := Obj [("success", Boolean false);
                          ("error", Str "Failed to create order in Shiprocket");
                          ("details",
                           Str "Cannot read properties of null (reading 'id')")] |}.
Proof.
  split; [reflexivity|]. split; reflexivity.
Qed.

(** C9, where the code departs from it. In the cart [false, book] the book
    has an empty name, so the per-item test finds it wanting, yet the order
    is not answered with "Invalid cart item data": the scan stops at the
    [false] in front, which is falsy, and the order is mapped and sent; when
    the provider accepts it, the answer is the 200. *)
Theorem empty_name_behind_false_is_forwarded (js : engine) (cfg : config)
  (w : world) :
  prop nameless_book "name" = Str ""
  /\ invalid_item js nameless_book = Ok true
  /\ exists p,
       outbound (create_order js cfg w
                   (order_with_cart (Arr [Boolean false; nameless_book])))
       = [create_adhoc cfg p]
       /\ (forall r,
             respond (create_order js cfg w
                        (order_with_cart (Arr [Boolean false; nameless_book])))
             = Ok r ->
             status r <> 400%Z)
       /\ (forall rs,
             provider w (create_adhoc cfg p) = Resolved rs ->
             nullish (resp_data rs) = false ->
             respond (create_order js cfg w
                        (order_with_cart (Arr [Boolean false; nameless_book])))
             = Ok {| status := 200;
                     body := Obj [("success", Boolean true);
                                  ("shiprocketOrderId",
                                   prop (resp_data rs) "order_id");
                                  ("message",
                                   Str "Order created successfully in Shiprocket")] |}).
Proof.
  split; [reflexivity|]. split; [reflexivity|].
  assert (Hd : destructure (order_with_cart (Arr [Boolean false; nameless_book]))
               = Ok (sample_submission (Arr [Boolean false; nameless_book])
                       (Num 200))) by reflexivity.
  assert (Hpass : passes js (sample_submission (Arr [Boolean false; nameless_book])
                               (Num 200))) by reflexivity.
  assert (Hm : exists p,
             map_payload js w (sample_submission
                                 (Arr [Boolean false; nameless_book]) (Num 200))
             = Ok p) by (eexists; reflexivity).
  destruct Hm as (p & Hp). exists p.
  destruct (passed_and_mapped js cfg w _ _ p Hd Hpass Hp) as (Ho & Hr & _).
  split; [exact Ho|]. split; [|exact Hr].
  intros r. apply (passed_never_400 js cfg w _ _ r Hd Hpass).
Qed.
